(** * CDspec: the record extractor and the StoryMap screenshotter

    A shallow embedding of [processing/extract_student_data.py] and
    [processing/batch_scrape_storymaps.py], and the properties of the
    specification that are settled against it.

    Conventions of the embedding.
    - A Python [str] is a [string]; each [ascii] stands for one code point
      below 256, so whitespace and case follow Python's rules on Latin-1.
    - A student record is the Python dict itself: a finite map from key names
      to values, so that the presence of a key is visible.
    - [records] is the insertion-ordered dict of the script: an association
      list that is updated in place or extended at its end.
    - The log file is the list of the messages written to it, oldest first.
    - What the scripts read from the outside (directory listings, what the
      CSV reader, pandas and the HTML read return, what the browser does) is
      a parameter of the run. *)

From Stdlib Require Import Ascii NArith.
From stdpp Require Import base option list sorting gmap strings.

Local Open Scope char_scope.

(** ** Python string operations *)

Module Py.

(** [str.isspace] on one code point below 256; this is also what [\s] of
    the [re] module matches on [str] patterns. *)
Definition is_space (c : ascii) : bool :=
  match c with
  | "009" | "010" | "011" | "012" | "013"
  | "028" | "029" | "030" | "031" | " "
  | "133" | "160" => true
  | _ => false
  end.

(** [str.lower] on one code point below 256. *)
Definition lower_char (c : ascii) : ascii :=
  let n := N_of_ascii c in
  if ((65 <=? n) && (n <=? 90))%N
     || ((192 <=? n) && (n <=? 222) && negb (n =? 215))%N
  then ascii_of_N (n + 32)
  else c.

Fixpoint lower (s : string) : string :=
  match s with
  | EmptyString => EmptyString
  | String c s' => String (lower_char c) (lower s')
  end.

(** [s.lstrip(chars)] and [s.rstrip(chars)], the character set given as a
    predicate. *)
Fixpoint lstrip_with (p : ascii → bool) (s : string) : string :=
  match s with
  | EmptyString => EmptyString
  | String c s' => if p c then lstrip_with p s' else s
  end.

Fixpoint rstrip_with (p : ascii → bool) (s : string) : string :=
  match s with
  | EmptyString => EmptyString
  | String c s' =>
      match rstrip_with p s' with
      | EmptyString => if p c then EmptyString else String c EmptyString
      | t => String c t
      end
  end.

(** [s.strip()] *)
Definition strip (s : string) : string :=
  lstrip_with is_space (rstrip_with is_space s).

(** [s.rstrip('/')] *)
Definition rstrip_slash (s : string) : string :=
  rstrip_with (λ c, bool_decide (c = "/")) s.

(** [s.startswith(p)] *)
Definition startswith (p s : string) : bool := String.prefix p s.

(** [sub in s] *)
Fixpoint contains (sub s : string) : bool :=
  String.prefix sub s
  || match s with
     | EmptyString => false
     | String _ s' => contains sub s'
     end.

(** [s.endswith(p)] *)
Fixpoint endswith (p s : string) : bool :=
  bool_decide (s = p)
  || match s with
     | EmptyString => false
     | String _ s' => endswith p s'
     end.

(** [s.split(sep)[0]] for a one-character separator: the text before the
    first [sep], the whole of [s] when there is none. *)
Fixpoint before_first (sep : ascii) (s : string) : string :=
  match s with
  | EmptyString => EmptyString
  | String c s' =>
      if bool_decide (c = sep) then EmptyString
      else String c (before_first sep s')
  end.

(** [s.split(sep, 1)]: one element when [sep] does not occur, else the text
    before the first [sep] and the text after it. *)
Fixpoint after_first (sep : ascii) (s : string) : option string :=
  match s with
  | EmptyString => None
  | String c s' => if bool_decide (c = sep) then Some s' else after_first sep s'
  end.

Definition split1 (sep : ascii) (s : string) : list string :=
  match after_first sep s with
  | None => [s]
  | Some rest => [before_first sep s; rest]
  end.

(** Truth value of a [str]. *)
Definition nonempty (s : string) : bool := negb (bool_decide (s = EmptyString)).

(** Truth value of a variable that holds [None] or a [str]. *)
Definition truthy (o : option string) : bool :=
  match o with
  | None => false
  | Some s => nonempty s
  end.

End Py.

Local Close Scope char_scope.

(** ** Part-1 field extractor: [extract_from_rows] *)

(** The [elif] branch: when the cell has a colon, the stripped text after
    its first colon, if that is not empty. *)
Definition colon_value (cell : string) : option string :=
  if Py.contains ":" cell then
    match Py.split1 ":" cell !! 1 with
    | Some part =>
        if Py.nonempty (Py.strip part) then Some (Py.strip part) else None
    | None => None
    end
  else None.

(** The body of [for i, cell in enumerate(row_str): ...]: the first cell
    whose lowercase form contains [key] decides, and the loop breaks there
    whether or not a value was found. [cells] is [row_str[i:]]. *)
Fixpoint scan_cells (key : string) (row_str : list string) (i : nat)
    (cells : list string) : option string :=
  match cells with
  | [] => None
  | cell :: rest =>
      if Py.contains key (Py.lower cell) then
        match row_str !! (i + 1) with
        | Some next => if Py.nonempty next then Some next else colon_value cell
        | None => colon_value cell
        end
      else scan_cells key row_str (S i) rest
  end.

(** One field of one row: left alone when it is already set, else scanned
    for; a scan that finds nothing leaves the variable as it was. *)
Definition scan_field (key : string) (row_str : list string)
    (cur : option string) : option string :=
  if Py.truthy cur then cur
  else match scan_cells key row_str 0 row_str with
       | Some v => Some v
       | None => cur
       end.

(** One iteration of [for row in rows[:10]]. *)
Definition scan_row (acc : option string * option string)
    (row : list string) : option string * option string :=
  match row with
  | [] => acc
  | _ =>
      let row_str := Py.strip <$> row in
      (scan_field "community district" row_str acc.1,
       scan_field "storymap url" row_str acc.2)
  end.

(** Cells are given by their [str(cell)]. *)
Definition extract_from_rows (rows : list (list string))
    : option string * option string * bool :=
  let '(cd, url) := foldl scan_row (None, None) (take 10 rows) in
  let issues := negb (Py.truthy cd) || negb (Py.truthy url) in
  (cd, url, issues).

(** ** Part-2 URL extractor: [extract_url_from_html] *)

(** The fragment of [re] patterns the script uses: literals (compared
    without case, as under [re.IGNORECASE]), character classes, greedy
    [*] and [+] on a class, and the parentheses of group 1. *)
Module Re.

Inductive item :=
  | Lit (c : ascii)
  | Cls (p : ascii → bool)
  | Star (p : ascii → bool)
  | Plus (p : ascii → bool)
  | GroupOpen
  | GroupClose.

Definition same_nocase (c x : ascii) : bool :=
  bool_decide (Py.lower_char c = Py.lower_char x).

(** The first [n] characters of [s]. *)
Fixpoint prefix_of_length (n : nat) (s : string) : string :=
  match n, s with
  | S n', String c s' => String c (prefix_of_length n' s')
  | _, _ => EmptyString
  end.

(** Backtracking match of [r] at the start of [s]. [gs] is the input at
    the place where group 1 opened and [g] the text of group 1 once it has
    closed; the result is group 1 of the first match in the order in which
    [re] tries them (a greedy repetition takes as much as it can and gives
    back one character at a time). *)
Fixpoint match_here (r : list item) (gs g s : string) {struct r} : option string :=
  match r with
  | [] => Some g
  | Lit c :: r' =>
      match s with
      | String x s' => if same_nocase c x then match_here r' gs g s' else None
      | EmptyString => None
      end
  | Cls p :: r' =>
      match s with
      | String x s' => if p x then match_here r' gs g s' else None
      | EmptyString => None
      end
  | Star p :: r' =>
      (fix star (s : string) : option string :=
         match s with
         | String x s' =>
             if p x then
               match star s' with
               | Some res => Some res
               | None => match_here r' gs g s
               end
             else match_here r' gs g s
         | EmptyString => match_here r' gs g s
         end) s
  | Plus p :: r' =>
      match s with
      | String x s' =>
          if p x then
            (fix star (s : string) : option string :=
               match s with
               | String x s' =>
                   if p x then
                     match star s' with
                     | Some res => Some res
                     | None => match_here r' gs g s
                     end
                   else match_here r' gs g s
               | EmptyString => match_here r' gs g s
               end) s'
          else None
      | EmptyString => None
      end
  | GroupOpen :: r' => match_here r' s g s
  | GroupClose :: r' =>
      match_here r' gs (prefix_of_length (String.length gs - String.length s) gs) s
  end.

(** [re.search(r, s).group(1)], [None] when there is no match: the
    leftmost start position at which [r] matches. *)
Fixpoint search (r : list item) (s : string) : option string :=
  match match_here r EmptyString EmptyString s with
  | Some g => Some g
  | None =>
      match s with
      | EmptyString => None
      | String _ s' => search r s'
      end
  end.

Definition lits (s : string) : list item := Lit <$> String.list_ascii_of_string s.

Definition is_quote (c : ascii) : bool :=
  bool_decide (c = "034"%char) || bool_decide (c = "'"%char).

End Re.

(** The anchor pattern [<a\s+[^>]*href=Q([^Q]+)Q], where [Q] stands for
    the class of the two quote characters. *)
Definition anchor_re : list Re.item :=
  Re.lits "<a" ++ [Re.Plus Py.is_space; Re.Star (λ c, negb (bool_decide (c = ">"%char)))]
  ++ Re.lits "href=" ++
  [Re.Cls Re.is_quote; Re.GroupOpen; Re.Plus (λ c, negb (Re.is_quote c));
   Re.GroupClose; Re.Cls Re.is_quote].

(** The meta-refresh pattern [content=Q[^Q]*url=([^Q;]+)], with the same
    [Q]. *)
Definition meta_re : list Re.item :=
  Re.lits "content=" ++ [Re.Cls Re.is_quote; Re.Star (λ c, negb (Re.is_quote c))]
  ++ Re.lits "url=" ++
  [Re.GroupOpen;
   Re.Plus (λ c, negb (Re.is_quote c || bool_decide (c = ";"%char)));
   Re.GroupClose].

(** What [open(filepath).read()] gives: the decoded text, or the exception
    it raised. *)
Inductive read_result :=
  | ReadOk (content : string)
  | ReadError (exc : string).

(** Returns the URL and the lines it logged. *)
Definition extract_url_from_html (filepath : string) (file : read_result)
    : option string * list string :=
  match file with
  | ReadOk content =>
      match Re.search anchor_re content with
      | Some u => (Some u, [])
      | None =>
          match Re.search meta_re content with
          | Some u => (Some u, [])
          | None => (None, [])
          end
      end
  | ReadError e => (None, ["HTML FAIL: " +:+ filepath +:+ " - " +:+ e])
  end.

(** ** Values, records and the run state *)

(** The values a record holds. *)
Inductive pyval :=
  | PyNone
  | PyBool (b : bool)
  | PyStr (s : string).

Global Instance pyval_eq_dec : EqDecision pyval.
Proof. solve_decision. Defined.

(** Truth value, as [if v:] tests it. *)
Definition py_truthy (v : pyval) : bool :=
  match v with
  | PyNone => false
  | PyBool b => b
  | PyStr s => Py.nonempty s
  end.

(** A variable that holds [None] or a [str], as a value. *)
Definition of_opt (o : option string) : pyval :=
  match o with
  | None => PyNone
  | Some s => PyStr s
  end.

(** A student record: the dict with its keys. *)
Abbreviation record := (gmap string pyval).

(** [r.get(key)] *)
Definition py_get (r : record) (key : string) : pyval := default PyNone (r !! key).

(** The script either runs on or stops on an exception nothing catches. *)
Inductive outcome (A : Type) :=
  | Done (a : A)
  | Raised (exc : string).
Arguments Done {A} a.
Arguments Raised {A} exc.

Definition bind {A B} (m : outcome A) (f : A → outcome B) : outcome B :=
  match m with
  | Done a => f a
  | Raised e => Raised e
  end.

(** Insertion-ordered dict keyed by strings. *)
Module Od.
Section od.
Context {V : Type}.

Fixpoint get (k : string) (d : list (string * V)) : option V :=
  match d with
  | [] => None
  | (k', v) :: d' => if decide (k = k') then Some v else get k d'
  end.

(** [d[k] = v]: an existing key keeps its place. *)
Fixpoint set (k : string) (v : V) (d : list (string * V)) : list (string * V) :=
  match d with
  | [] => [(k, v)]
  | (k', v') :: d' =>
      if decide (k = k') then (k, v) :: d' else (k', v') :: set k v d'
  end.

Definition keys (d : list (string * V)) : list string := d.*1.
Definition values (d : list (string * V)) : list V := d.*2.
End od.
End Od.

Record state := State {
  records : list (string * record);
  log : list string
}.

(** [log_error(message)] *)
Definition log_error (message : string) (s : state) : state :=
  State (records s) (log s ++ [message]).

Definition log_all (messages : list string) (s : state) : state :=
  State (records s) (log s ++ messages).

Definition set_record (k : string) (r : record) (s : state) : state :=
  State (Od.set k r (records s)) (log s).

(** [os.path.join(a, b)] on POSIX. *)
Definition path_join (a b : string) : string :=
  if Py.startswith "/" b then b
  else if bool_decide (a = EmptyString) || Py.endswith "/" a then a +:+ b
  else a +:+ "/" +:+ b.

Definition SOURCE_DIR_1 : string := "lecture_checklists/cdspec_1".
Definition SOURCE_DIR_2 : string := "lecture_checklists/cdspec_2".

(** ** What a run reads *)

(** The rows [csv.reader] returns for a file whose first bytes are not the
    [PK] signature, or the exception of the first [try] block: one raised
    by opening or decoding the file, or the [ValueError] on that signature. *)
Inductive csv_read :=
  | CsvRows (rows : list (list string))
  | CsvError (exc : string).

(** The rows of the data frame pandas reads ([df.values.tolist()], each
    cell by its [str]), or the exception of the second [try] block, the
    [ImportError] of a missing pandas included. *)
Inductive pandas_read :=
  | PandasRows (rows : list (list string))
  | PandasError (exc : string).

(** The two directories ([None]: the directory does not exist, else what
    [os.listdir] returns) and what reading each file gives. *)
Record world := World {
  dir1 : option (list string);
  read_csv : string → csv_read;
  read_pandas : string → pandas_read;
  dir2 : option (list string);
  read_html : string → read_result
}.

(** ** Part 1 *)

(** The strict check; [rows[0][0]] and [rows[1][0]] raise [IndexError] on
    an empty row. *)
Definition strict_check (rows : list (list string)) : outcome bool :=
  match rows with
  | row0 :: row1 :: _ =>
      match row0 with
      | [] => Raised "list index out of range"
      | c0 :: _ =>
          match row1 with
          | [] => Raised "list index out of range"
          | c1 :: _ =>
              Done (Py.contains "Community District" c0
                    && Py.contains "StoryMap URL" c1)
          end
      end
  | _ => Done false
  end.

(** Local variables of one Part-1 iteration at the final check. *)
Record part1_vars := Part1Vars {
  community_district : option string;
  storymap_url : option string;
  needs_review : bool;
  logged : list string
}.

(** The [except Exception as e_csv] block. *)
Definition pandas_fallback (w : world) (filename e_csv : string) : part1_vars :=
  let l0 := ["CSV FAIL: " +:+ filename +:+ " (" +:+ e_csv +:+ "). Attempting with Pandas..."] in
  match read_pandas w filename with
  | PandasRows rows =>
      let '(cd, url, issues) := extract_from_rows rows in
      Part1Vars cd url true
        (l0 ++ [if issues
                then "PANDAS FAIL: " +:+ filename +:+ " - Still missing data after coercion."
                else "RECOVERED: " +:+ filename +:+ " - Extracted data using Pandas/Fuzzy search."])
  | PandasError e_pd =>
      Part1Vars None None true
        (l0 ++ ["FATAL: Could not process " +:+ filename +:+ ". Error: " +:+ e_pd])
  end.

(** The two nested [try] blocks. *)
Definition read_part1 (w : world) (filename : string) : part1_vars :=
  match read_csv w filename with
  | CsvError e_csv => pandas_fallback w filename e_csv
  | CsvRows rows =>
      match strict_check rows with
      | Raised e_csv => pandas_fallback w filename e_csv
      | Done strict_ok =>
          let '(cd, url, issues) := extract_from_rows rows in
          Part1Vars cd url (negb strict_ok || issues)
            (if strict_ok then []
             else ["DEVIANT FORMAT: " +:+ filename +:+ " - trying fuzzy search."])
      end
  end.

(** The final check of Part 1: the missing-data lines and the flag. *)
Definition final_check (filename : string) (v : part1_vars) : part1_vars :=
  let no_cd := negb (Py.truthy (community_district v)) in
  let no_url := negb (Py.truthy (storymap_url v)) in
  Part1Vars (community_district v) (storymap_url v)
    (needs_review v || no_cd || no_url)
    (logged v
     ++ (if no_cd
         then ["MISSING DATA: " +:+ filename +:+ " - No Community District found."]
         else [])
     ++ (if no_url
         then ["MISSING DATA: " +:+ filename +:+ " - No StoryMap URL found."]
         else [])).

Definition part1_record (student_name : string) (v : part1_vars) : record :=
  list_to_map
    [("student", PyStr student_name);
     ("community_district", of_opt (community_district v));
     ("storymap_url", of_opt (storymap_url v));
     ("needs_review", PyBool (needs_review v));
     ("part_1_completed", PyBool true)].

(** One iteration of [for filename in files] over the first directory. *)
Definition part1_step (w : world) (s : state) (filename : string) : state :=
  if Py.startswith "." filename then s
  else
    let student_name := Py.before_first "_" filename in
    let v := final_check filename (read_part1 w filename) in
    set_record student_name (part1_record student_name v) (log_all (logged v) s).

(** ** Part 2 *)

(** [url.strip().rstrip('/').lower()] *)
Definition url_clean (url : string) : string :=
  Py.lower (Py.rstrip_slash (Py.strip url)).

(** [url_1.strip().rstrip('/').lower() if url_1 else ...]: the method
    call raises on a value that is true and not a [str]. *)
Definition clean_if (url_1 : pyval) : outcome string :=
  match url_1 with
  | PyStr u => Done (if Py.nonempty u then url_clean u else EmptyString)
  | PyNone | PyBool false => Done EmptyString
  | PyBool true => Raised "'bool' object has no attribute 'strip'"
  end.

(** [f"{v}"] *)
Definition py_str (v : pyval) : string :=
  match v with
  | PyNone => "None"
  | PyBool true => "True"
  | PyBool false => "False"
  | PyStr s => s
  end.

Definition part2_new_record (student_name url_2 : string) : record :=
  list_to_map
    [("student", PyStr student_name);
     ("community_district", PyNone);
     ("storymap_url", PyStr url_2);
     ("storymap_url_2", PyStr url_2);
     ("needs_review", PyBool true);
     ("part_1_completed", PyBool false);
     ("part_2_completed", PyBool true);
     ("note", PyStr "Found only in Part 2")].

(** The branch of a file from which no URL came. *)
Definition part2_no_url (student_name filename : string) (s : state) : state :=
  let s := log_error ("PART 2 FAIL: Could not extract URL from " +:+ filename) s in
  match Od.get student_name (records s) with
  | Some r =>
      set_record student_name
        (<["part_2_error" := PyStr "No URL found in HTML"]>
           (<["needs_review" := PyBool true]> r)) s
  | None => s
  end.

(** The branch of a file with a URL. The record is changed in place; the
    state is given with the record as it is at the end of the iteration. *)
Definition part2_merge (student_name url_2 : string) (s : state) : outcome state :=
  match Od.get student_name (records s) with
  | Some r =>
      let r := <["part_2_completed" := PyBool true]>
                 (<["storymap_url_2" := PyStr url_2]> r) in
      let url_1 := py_get r "storymap_url" in
      bind (clean_if url_1) (λ u1_clean,
        let u2_clean := if Py.nonempty url_2 then url_clean url_2 else EmptyString in
        if negb (Py.nonempty u1_clean) && Py.nonempty u2_clean then
          Done (log_error ("UPDATED: " +:+ student_name +:+ " - Using Part 2 URL (Part 1 missing).")
                  (set_record student_name (<["storymap_url" := PyStr url_2]> r) s))
        else if Py.nonempty u1_clean && Py.nonempty u2_clean
                && negb (bool_decide (u1_clean = u2_clean)) then
          Done (log_error ("URL MISMATCH: " +:+ student_name +:+ " - Part 1: "
                           +:+ py_str url_1 +:+ " vs Part 2: " +:+ url_2)
                  (set_record student_name (<["url_mismatch" := PyBool true]> r) s))
        else Done (set_record student_name r s))
  | None =>
      Done (log_error ("NEW STUDENT: " +:+ student_name +:+ " found in Part 2.")
              (set_record student_name (part2_new_record student_name url_2) s))
  end.

(** One iteration of [for filename in files2]. *)
Definition part2_step (w : world) (s : state) (filename : string) : outcome state :=
  let filepath := path_join SOURCE_DIR_2 filename in
  if Py.startswith "." filename || negb (Py.endswith ".html" filename) then Done s
  else
    let student_name := Py.before_first "_" filename in
    let '(url_2, lines) := extract_url_from_html filepath (read_html w filename) in
    let s := log_all lines s in
    if negb (Py.truthy url_2) then Done (part2_no_url student_name filename s)
    else part2_merge student_name (default EmptyString url_2) s.

Fixpoint part2_loop (w : world) (files2 : list string) (s : state) : outcome state :=
  match files2 with
  | [] => Done s
  | filename :: rest => bind (part2_step w s filename) (part2_loop w rest)
  end.

(** ** The whole run: [process_files] *)

(** [files.sort()] *)
Definition sort_names (files : list string) : list string :=
  merge_sort String.le files.

Definition part1 (w : world) (s : state) : state :=
  match dir1 w with
  | None => log_error ("CRITICAL: Directory not found: " +:+ SOURCE_DIR_1) s
  | Some files => foldl (part1_step w) s (sort_names files)
  end.

Definition part2 (w : world) (s : state) : outcome state :=
  match dir2 w with
  | Some files2 => part2_loop w (sort_names files2) s
  | None => Done s
  end.

(** The state when the output is written; the log starts empty, the old
    file having been removed. *)
Definition process_files (w : world) : outcome state :=
  part2 w (part1 w (State [] [])).

(** [data = list(records.values())], the array that is written out. *)
Definition output (s : state) : list record := Od.values (records s).

(** ** The screenshotter: [scrape_storymaps] *)

Module Scrape.

Definition OUTPUT_DIR : string := "processing/storymaps_archive".

(** What one pass through the [try] block of a URL does, as the browser
    decides it. *)
Inductive visit_result :=
  | NewPageFails (exc : string)
      (** [context.new_page()] raises: no navigation takes place *)
  | GotoFails (exc : string)
      (** [page.goto] raises *)
  | ScreenshotFails (exc : string)
      (** the page loads and [page.screenshot] raises, writing nothing *)
  | Saved (png : string)
      (** the image is written and the page closed *)
  | CloseFails (png exc : string).
      (** the image is written and [page.close()] raises *)

(** The browser: the result of the [n]-th [try] block entered, for the URL
    it is given. *)
Definition browser := nat → pyval → visit_result.

(** The file system under the archive root (files with their content,
    directories), the URLs [page.goto] was called with, the number of
    [try] blocks entered and the lines printed. *)
Record state := State {
  files : gmap string string;
  dirs : gset string;
  navigations : list pyval;
  attempts : nat;
  stdout : list string
}.

Definition print (line : string) (s : state) : state :=
  State (files s) (dirs s) (navigations s) (attempts s) (stdout s ++ [line]).

(** [os.path.exists(path)] *)
Definition path_exists (path : string) (s : state) : bool :=
  bool_decide (is_Some (files s !! path)) || bool_decide (path ∈ dirs s).

(** [os.makedirs(path, exist_ok=True)]; it raises when [path] is a file. *)
Definition makedirs (path : string) (s : state) : state * option string :=
  if bool_decide (is_Some (files s !! path))
  then (s, Some ("[Errno 17] File exists: '" +:+ path +:+ "'"))
  else (State (files s) ({[path]} ∪ dirs s) (navigations s) (attempts s) (stdout s), None).

(** The worklist of one record. *)
Definition urls_to_process (student_record : record) : list (string * pyval) :=
  let url1 := py_get student_record "storymap_url" in
  let first := if py_truthy url1 then [("part1", url1)] else [] in
  if py_truthy (py_get student_record "url_mismatch") then
    let url2 := py_get student_record "storymap_url_2" in
    if py_truthy url2 then first ++ [("part2", url2)] else first
  else first.

(** The [try] block, for the result the browser gives. *)
Definition visit (b : browser) (label output_path : string) (url : pyval)
    (s : state) : state :=
  let n := attempts s in
  let goes (s : state) :=
    State (files s) (dirs s) (navigations s ++ [url]) (S n) (stdout s) in
  let writes (png : string) (s : state) :=
    State (<[output_path := png]> (files s)) (dirs s) (navigations s)
      (attempts s) (stdout s ++ ["    -> Saved to " +:+ output_path]) in
  let failed (exc : string) (s : state) :=
    print ("    -> FAILED " +:+ label +:+ ": " +:+ exc) s in
  match b n url with
  | NewPageFails exc =>
      failed exc (State (files s) (dirs s) (navigations s) (S n) (stdout s))
  | GotoFails exc => failed exc (goes s)
  | ScreenshotFails exc => failed exc (goes s)
  | Saved png => writes png (goes s)
  | CloseFails png exc => failed exc (writes png (goes s))
  end.

(** One iteration of [for label, url in urls_to_process]. *)
Definition scrape_url (b : browser) (student_dir : string) (s : state)
    (item : string * pyval) : state :=
  let '(label, url) := item in
  let output_path := path_join student_dir (label +:+ ".png") in
  if path_exists output_path s then
    print ("  - Skipping " +:+ label +:+ " (already exists)") s
  else
    visit b label output_path url
      (print ("  - Downloading " +:+ label +:+ ": " +:+ py_str url) s).

(** One iteration of [for student_record in data]; the second component
    is the exception that ends the script, if one is raised. *)
Definition scrape_record (b : browser) (s : state) (student_record : record)
    : state * option string :=
  let student_name := py_get student_record "student" in
  if negb (py_truthy student_name) then (s, None)
  else
    let s := print ("Processing " +:+ py_str student_name +:+ "...") s in
    match student_name with
    | PyStr name =>
        let student_dir := path_join OUTPUT_DIR name in
        match makedirs student_dir s with
        | (s, Some exc) => (s, Some exc)
        | (s, None) =>
            (foldl (scrape_url b student_dir) s (urls_to_process student_record), None)
        end
    | _ => (s, Some "expected str, bytes or os.PathLike object, not bool")
    end.

Fixpoint scrape_records (b : browser) (data : list record) (s : state)
    : state * option string :=
  match data with
  | [] => (s, None)
  | student_record :: rest =>
      match scrape_record b s student_record with
      | (s', None) => scrape_records b rest s'
      | (s', Some exc) => (s', Some exc)
      end
  end.

(** The script on the records [data] that it loaded. *)
Definition scrape_storymaps (b : browser) (data : list record) (s : state)
    : state * option string :=
  match makedirs OUTPUT_DIR s with
  | (s, Some exc) => (s, Some exc)
  | (s, None) => scrape_records b data s
  end.

End Scrape.

(** * Definitions for the statements *)

Definition example_rows : list (list string) :=
  [["Community District"; EmptyString; EmptyString];
   ["StoryMap URL"; "https://arcg.is/ABC123"]].

Definition dquote : string := String "034"%char EmptyString.

(** The meta-refresh tag of the example, with its double quotes. *)
Definition example_meta : string :=
  "<meta http-equiv=" +:+ dquote +:+ "Refresh" +:+ dquote +:+ " content="
  +:+ dquote +:+ "0; url=https://arcg.is/XYZ789" +:+ dquote +:+ ">".

(** A run on one Part-1 file in which a district and no URL is found. *)
Definition world_without_url : world :=
  World (Some ["ada_checklist.csv"])
    (λ _, CsvRows [["Community District"; "Bronx 4"]; ["StoryMap URL"]])
    (λ _, PandasError "unused") None (λ _, ReadError "unused").

Definition record_without_url : record :=
  list_to_map
    [("student", PyStr "ada"); ("community_district", PyStr "Bronx 4");
     ("storymap_url", PyNone); ("needs_review", PyBool true);
     ("part_1_completed", PyBool true)].

(** [s'] has the files, navigations and attempts of [s], and at least its
    directories. *)
Definition untouched (s s' : Scrape.state) : Prop :=
  Scrape.files s' = Scrape.files s ∧ Scrape.navigations s' = Scrape.navigations s
  ∧ Scrape.attempts s' = Scrape.attempts s ∧ Scrape.dirs s ⊆ Scrape.dirs s'.

(** The target of a worklist entry. *)
Definition output_path (student_dir label : string) : string :=
  path_join student_dir (label +:+ ".png").

(** The files of the first and of the second directory that an iteration
    goes on with. *)
Definition runs1 (filename : string) : bool := negb (Py.startswith "." filename).
Definition runs2 (filename : string) : bool :=
  negb (Py.startswith "." filename || negb (Py.endswith ".html" filename)).

(** The run with the files that are passed over taken out of the two
    listings. *)
Definition without_skipped (w : world) : world :=
  World (filter (λ f, runs1 f = true) <$> dir1 w) (read_csv w) (read_pandas w)
    (filter (λ f, runs2 f = true) <$> dir2 w) (read_html w).

Definition student_of (filename : string) : string := Py.before_first "_" filename.

(** The URL [extract_url_from_html] returns for a file of the second
    directory. *)
Definition url_of (w : world) (filename : string) : option string :=
  (extract_url_from_html (path_join SOURCE_DIR_2 filename) (read_html w filename)).1.

(** The record after the branch without a URL. *)
Definition flagged (r : record) : record :=
  <["part_2_error" := PyStr "No URL found in HTML"]> (<["needs_review" := PyBool true]> r).

(** The record after the two assignments that attach the Part-2 URL. *)
Definition attached (url_2 : string) (r : record) : record :=
  <["part_2_completed" := PyBool true]> (<["storymap_url_2" := PyStr url_2]> r).

(** The record after the branch with a URL, for a record that exists. *)
Definition merged (url_2 : string) (r : record) : outcome record :=
  let r := attached url_2 r in
  bind (clean_if (py_get r "storymap_url")) (λ u1_clean,
    let u2_clean := if Py.nonempty url_2 then url_clean url_2 else EmptyString in
    if negb (Py.nonempty u1_clean) && Py.nonempty u2_clean then
      Done (<["storymap_url" := PyStr url_2]> r)
    else if Py.nonempty u1_clean && Py.nonempty u2_clean
            && negb (bool_decide (u1_clean = u2_clean)) then
      Done (<["url_mismatch" := PyBool true]> r)
    else Done r).

(** What one file that maps to [k] and gives [url_2] makes of the record
    of [k] ([None]: there is no record). *)
Definition next_record (k : string) (url_2 : option string) (old : option record)
    : outcome (option record) :=
  if negb (Py.truthy url_2) then Done (flagged <$> old)
  else
    match old with
    | Some r => bind (merged (default EmptyString url_2) r) (λ r', Done (Some r'))
    | None => Done (Some (part2_new_record k (default EmptyString url_2)))
    end.

Fixpoint fold_next (k : string) (urls : list (option string)) (o : option record)
    : outcome (option record) :=
  match urls with
  | [] => Done o
  | u :: rest => bind (next_record k u o) (fold_next k rest)
  end.

(** [records] with the record of [k] replaced by [o], when there is one. *)
Definition put (k : string) (o : option record) (d : list (string * record))
    : list (string * record) :=
  match o with
  | Some r => Od.set k r d
  | None => d
  end.

(** The files of a listing that Part 2 goes on with and that map to [k],
    and the URLs found in them. *)
Definition own (k : string) (files2 : list string) : list string :=
  filter (λ f, runs2 f = true ∧ student_of f = k) files2.

Definition own_urls (w : world) (k : string) (files2 : list string)
    : list (option string) :=
  url_of w <$> own k files2.

(** The primary URL of a record is [None] or a string. *)
Definition typed (r : record) : Prop :=
  match py_get r "storymap_url" with
  | PyBool _ => False
  | _ => True
  end.

(** The normalized form of a URL field; empty for a field that is
    missing or [None]. *)
Definition cleaned (v : pyval) : string :=
  match v with
  | PyStr u => url_clean u
  | _ => EmptyString
  end.

Ltac map_lookup :=
  unfold py_get, flagged, attached in *;
  repeat (rewrite lookup_insert_eq in * || rewrite lookup_insert_ne in * by done).

(** The record Part 1 stores for a file. *)
Definition part1_record_of (w : world) (filename : string) : record :=
  part1_record (student_of filename) (final_check filename (read_part1 w filename)).

(** A record as Part 1 leaves it: the five keys, a district and a URL
    that are [None] or strings. *)
Definition part1_shaped (k : string) (r : record) : Prop :=
  ∃ v, r = part1_record k v.

(** The files of the two directories, in the order of processing; none
    when the directory is absent. *)
Definition files1 (w : world) : list string := sort_names (default [] (dir1 w)).
Definition files2 (w : world) : list string := sort_names (default [] (dir2 w)).

(** [url_mismatch] is true. *)
Definition flag (r : record) : Prop := r !! "url_mismatch" = Some (PyBool true).

(** The normalized forms of the two URLs are both non-empty and differ. *)
Definition differ (r : record) : Prop :=
  cleaned (py_get r "storymap_url") ≠ EmptyString
  ∧ cleaned (py_get r "storymap_url_2") ≠ EmptyString
  ∧ cleaned (py_get r "storymap_url") ≠ cleaned (py_get r "storymap_url_2").

(** The number of files with a URL among those seen. *)
Definition bearing (urls : list (option string)) : nat :=
  length (filter (λ u, Py.truthy u = true) urls).

Definition mismatch_inv (hist : list (option string)) (o : option record) : Prop :=
  ∀ r, o = Some r →
    typed r
    ∧ (flag r → cleaned (py_get r "storymap_url") ≠ EmptyString)
    ∧ (differ r → flag r)
    ∧ (bearing hist = 0 → r !! "url_mismatch" = None)
    ∧ (bearing hist ≤ 1 → flag r → differ r).

(** The [student] field of the record of [k] is [k]. *)
Definition student_inv (k : string) (o : option record) : Prop :=
  ∀ r, o = Some r → r !! "student" = Some (PyStr k).

(** The optional keys are in a record only after their event: a file
    with a URL for the four keys of a merge, a file without one for
    [part_2_error]. *)
Definition keys_inv (hist : list (option string)) (o : option record) : Prop :=
  ∀ r, o = Some r →
    ((is_Some (r !! "storymap_url_2") ∨ is_Some (r !! "part_2_completed")
      ∨ is_Some (r !! "url_mismatch") ∨ is_Some (r !! "note")) →
     ∃ u, u ∈ hist ∧ Py.truthy u = true)
    ∧ (is_Some (r !! "part_2_error") → ∃ u, u ∈ hist ∧ Py.truthy u = false).

(** The number of Part-2 files with a URL that map to [k]. *)
Definition bearing_files (w : world) (k : string) : nat :=
  length (filter (λ f, runs2 f = true ∧ student_of f = k ∧ Py.truthy (url_of w f) = true)
            (default [] (dir2 w))).

(** There is a record for [k] exactly when a file of Part 1 maps to [k]
    or a Part-2 file with a URL does. *)
Definition has_source (w : world) (k : string) : Prop :=
  (∃ f, f ∈ default [] (dir1 w) ∧ runs1 f = true ∧ student_of f = k)
  ∨ (∃ f, f ∈ default [] (dir2 w) ∧ runs2 f = true ∧ student_of f = k
          ∧ Py.truthy (url_of w f) = true).

(** The records of the array whose [student] is [k]. *)
Definition records_of (k : string) (data : list record) : list record :=
  filter (λ r, r !! "student" = Some (PyStr k)) data.

(** A run in which the only file is a Part-2 page without a link. *)
Definition world_without_link : world :=
  World (Some []) (λ _, CsvError "unused") (λ _, PandasError "unused")
    (Some ["bob_link.html"]) (λ _, ReadOk "<html><body>no link here</body></html>").

(** The condition of the claim: both URLs are non-empty and their
    normalized forms differ. *)
Definition differ_raw (r : record) : Prop :=
  py_truthy (py_get r "storymap_url") = true
  ∧ py_truthy (py_get r "storymap_url_2") = true
  ∧ cleaned (py_get r "storymap_url") ≠ cleaned (py_get r "storymap_url_2").

Definition ada_rows : list (list string) :=
  [["Community District"; "Bronx 1"]; ["StoryMap URL"; "https://arcg.is/A"]].

(** Two Part-2 pages for one student: the first links elsewhere, the
    second links to the Part-1 URL. *)
Definition world_two_links : world :=
  World (Some ["ada_checklist.csv"]) (λ _, CsvRows ada_rows)
    (λ _, PandasError "unused")
    (Some ["ada_a.html"; "ada_b.html"])
    (λ f, if decide (f = "ada_a.html")
          then ReadOk "<a href='https://arcg.is/B'>StoryMap</a>"
          else ReadOk "<a href='https://arcg.is/A/'>StoryMap</a>").

Definition record_stale : record :=
  list_to_map
    [("student", PyStr "ada"); ("community_district", PyStr "Bronx 1");
     ("storymap_url", PyStr "https://arcg.is/A"); ("needs_review", PyBool false);
     ("part_1_completed", PyBool true);
     ("storymap_url_2", PyStr "https://arcg.is/A/");
     ("part_2_completed", PyBool true); ("url_mismatch", PyBool true)].

(** One Part-2 page whose link is a single slash. *)
Definition world_slash : world :=
  World (Some ["ada_checklist.csv"]) (λ _, CsvRows ada_rows)
    (λ _, PandasError "unused")
    (Some ["ada_a.html"]) (λ _, ReadOk "<a href='/'>StoryMap</a>").

Definition record_slash : record :=
  list_to_map
    [("student", PyStr "ada"); ("community_district", PyStr "Bronx 1");
     ("storymap_url", PyStr "https://arcg.is/A"); ("needs_review", PyBool false);
     ("part_1_completed", PyBool true);
     ("storymap_url_2", PyStr "/"); ("part_2_completed", PyBool true)].

(** A Part-1 file whose URL cell is a single slash, and a Part-2 page. *)
Definition world_slash_part1 : world :=
  World (Some ["bob_checklist.csv"])
    (λ _, CsvRows [["Community District"; "Bronx 2"]; ["StoryMap URL"; "/"]])
    (λ _, PandasError "unused")
    (Some ["bob_link.html"]) (λ _, ReadOk "<a href='https://arcg.is/C'>StoryMap</a>").

(** The keys of a record that Part 1 writes. *)
Definition part1_keys : gset string :=
  {[ "student"; "community_district"; "storymap_url"; "needs_review";
     "part_1_completed" ]}.

(** Two students, one of them with a Part-2 page. *)
Definition world_mixed : world :=
  World (Some ["ada_checklist.csv"; "bob_checklist.csv"]) (λ _, CsvRows ada_rows)
    (λ _, PandasError "unused")
    (Some ["bob_link.html"]) (λ _, ReadOk "<a href='https://arcg.is/A'>StoryMap</a>").

(** ** Definitions for the further properties *)

(** A value the extractor returns: not empty, and stripped. *)
Definition field_value (o : option string) : Prop :=
  ∀ v, o = Some v → v ≠ EmptyString ∧ Py.strip v = v.

(** Every character of [s] is in the class [p]. *)
Fixpoint all_chars (p : ascii → bool) (s : string) : bool :=
  match s with
  | EmptyString => true
  | String c s' => p c && all_chars p s'
  end.

(** An item that is not a parenthesis of the group. *)
Definition plain (i : Re.item) : Prop :=
  match i with
  | Re.GroupOpen | Re.GroupClose => False
  | _ => True
  end.

(** The items of the two patterns before the group. *)
Definition anchor_head : list Re.item :=
  Re.lits "<a" ++ [Re.Plus Py.is_space; Re.Star (λ c, negb (bool_decide (c = ">"%char)))]
  ++ Re.lits "href=" ++ [Re.Cls Re.is_quote].

Definition meta_head : list Re.item :=
  Re.lits "content=" ++ [Re.Cls Re.is_quote; Re.Star (λ c, negb (Re.is_quote c))]
  ++ Re.lits "url=".

(** The fields of Part 1 that Part 2 does not write, and the review flag,
    which it only sets. *)
Definition part1_fields_kept (r r' : record) : Prop :=
  r' !! "student" = r !! "student"
  ∧ r' !! "community_district" = r !! "community_district"
  ∧ r' !! "part_1_completed" = r !! "part_1_completed"
  ∧ r' !! "note" = r !! "note"
  ∧ (r !! "needs_review" = Some (PyBool true) →
     r' !! "needs_review" = Some (PyBool true)).

Definition part2_fail_line (filename : string) : string :=
  "PART 2 FAIL: Could not extract URL from " +:+ filename.

Definition html_fail_line (filename exc : string) : string :=
  "HTML FAIL: " +:+ path_join SOURCE_DIR_2 filename +:+ " - " +:+ exc.

(** A run without the first directory and with one Part-2 page. *)
Definition world_part2_only : world :=
  World None (λ _, CsvError "unused") (λ _, PandasError "unused")
    (Some ["cat_link.html"]) (λ _, ReadOk "<a href='https://arcg.is/D'>StoryMap</a>").

(** The record of a student without a Part-1 file, once it exists. *)
Definition part2_only (r : record) : Prop :=
  r !! "part_1_completed" = Some (PyBool false)
  ∧ r !! "note" = Some (PyStr "Found only in Part 2")
  ∧ r !! "needs_review" = Some (PyBool true)
  ∧ r !! "community_district" = Some PyNone
  ∧ r !! "part_2_completed" = Some (PyBool true).

(** The second URL of a record is a non-empty string whenever it is set,
    and [url_mismatch] is absent or true. *)
Definition second_url_inv (o : option record) : Prop :=
  ∀ r, o = Some r →
    (r !! "url_mismatch" = None ∨ r !! "url_mismatch" = Some (PyBool true))
    ∧ (r !! "url_mismatch" = Some (PyBool true) →
       py_truthy (py_get r "storymap_url_2") = true).

(** A record that needs no review has seen only Part-2 files with a URL. *)
Definition clean_inv (hist : list (option string)) (o : option record) : Prop :=
  ∀ r, o = Some r →
    r !! "needs_review" = Some (PyBool false) →
    Forall (λ u, Py.truthy u = true) hist.

(** [s'] has every file of [s] with its content, and every directory. *)
Definition grows (s s' : Scrape.state) : Prop :=
  Scrape.files s ⊆ Scrape.files s' ∧ Scrape.dirs s ⊆ Scrape.dirs s'.

(** The navigations of [s'] are those of [s] followed by at most [n]
    others, each to a URL in [P]. *)
Definition navigated (P : pyval → Prop) (n : nat) (s s' : Scrape.state) : Prop :=
  ∃ l, Scrape.navigations s' = Scrape.navigations s ++ l
       ∧ Forall P l ∧ length l ≤ n.

(** A URL of the worklist of a record: its [storymap_url], or its
    [storymap_url_2] when [url_mismatch] is true; never an empty value. *)
Definition url_of_record (r : record) (u : pyval) : Prop :=
  py_truthy u = true
  ∧ (u = py_get r "storymap_url"
     ∨ (u = py_get r "storymap_url_2" ∧ py_truthy (py_get r "url_mismatch") = true)).

(** A browser that always gets as far as writing the image. *)
Definition saves (b : Scrape.browser) : Prop :=
  ∀ n url, match b n url with
           | Scrape.Saved _ | Scrape.CloseFails _ _ => True
           | _ => False
           end.

(** * Properties *)

Example extract_from_rows_plain :
  extract_from_rows [["Community District"; "Bronx 4"]; ["StoryMap URL"; "https://arcg.is/1"]]
  = (Some "Bronx 4", Some "https://arcg.is/1", false).
Proof. reflexivity. Qed.

Example extract_from_rows_colon :
  extract_from_rows [["Community District: Queens 7 "]; ["x"; "StoryMap URL:https://arcg.is/2"; EmptyString]]
  = (Some "Queens 7", Some "https://arcg.is/2", false).
Proof. reflexivity. Qed.

Example extract_url_anchor :
  extract_url_from_html "p" (ReadOk "<html><A  class='x' HREF='https://arcg.is/15KnDO0'>go</a>")
  = (Some "https://arcg.is/15KnDO0", []).
Proof. vm_compute. reflexivity. Qed.

Example extract_url_meta :
  extract_url_from_html "p" (ReadOk "<meta http-equiv='Refresh' content='0; url=https://arcg.is/15KnDO0'>")
  = (Some "https://arcg.is/15KnDO0", []).
Proof. vm_compute. reflexivity. Qed.

(** ** The ordered dict *)

Module OdFacts.
Section od_facts.
Context {V : Type}.
Implicit Types (d : list (string * V)) (k : string) (v : V).

Lemma get_set_eq k v d : Od.get k (Od.set k v d) = Some v.
Proof.
  induction d as [|[k' v'] d IH]; simpl.
  - by rewrite decide_True.
  - destruct (decide (k = k')) as [->|Hne]; simpl.
    + by rewrite decide_True.
    + by rewrite decide_False.
Qed.

Lemma get_set_ne k k' v d : k ≠ k' → Od.get k' (Od.set k v d) = Od.get k' d.
Proof.
  intros Hne. induction d as [|[k0 v0] d IH]; simpl.
  - by rewrite decide_False.
  - destruct (decide (k = k0)) as [->|Hk]; simpl.
    + by rewrite !decide_False.
    + by rewrite IH.
Qed.

Lemma get_None k d : Od.get k d = None ↔ k ∉ Od.keys d.
Proof.
  unfold Od.keys. induction d as [|[k' v'] d IH]; simpl.
  - split; [intros _; apply not_elem_of_nil | done].
  - rewrite not_elem_of_cons. destruct (decide (k = k')) as [->|Hne].
    + split; [done | intros [? _]; done].
    + rewrite IH. split; [done | by intros [_ ?]].
Qed.

Lemma get_Some_elem_of k v d : Od.get k d = Some v → (k, v) ∈ d.
Proof.
  induction d as [|[k' v'] d IH]; simpl; [done|].
  destruct (decide (k = k')) as [->|]; intros H.
  - injection H as ->. apply list_elem_of_here.
  - apply list_elem_of_further. auto.
Qed.

Lemma elem_of_get k v d : NoDup (Od.keys d) → (k, v) ∈ d → Od.get k d = Some v.
Proof.
  unfold Od.keys. induction d as [|[k' v'] d IH]; simpl.
  - intros _ H. by apply elem_of_nil in H.
  - rewrite NoDup_cons. intros [Hk Hd] [Heq|Hin]%elem_of_cons.
    + injection Heq as -> ->. by rewrite decide_True.
    + destruct (decide (k = k')) as [->|]; [|auto].
      destruct Hk. apply list_elem_of_fmap. by exists (k', v).
Qed.

Lemma keys_set_in k v d : k ∈ Od.keys d → Od.keys (Od.set k v d) = Od.keys d.
Proof.
  unfold Od.keys. induction d as [|[k' v'] d IH]; simpl.
  - intros H. by apply elem_of_nil in H.
  - intros Hin. destruct (decide (k = k')) as [->|Hne]; simpl; [done|].
    f_equal. apply IH. apply elem_of_cons in Hin as [?|?]; done.
Qed.

Lemma keys_set_notin k v d : k ∉ Od.keys d → Od.keys (Od.set k v d) = Od.keys d ++ [k].
Proof.
  unfold Od.keys. induction d as [|[k' v'] d IH]; simpl; [done|].
  rewrite not_elem_of_cons. intros [Hne Hin].
  rewrite decide_False by done. simpl. f_equal. by apply IH.
Qed.

Lemma NoDup_keys_set k v d : NoDup (Od.keys d) → NoDup (Od.keys (Od.set k v d)).
Proof.
  intros Hnd. destruct (decide (k ∈ Od.keys d)) as [Hin|Hin].
  - by rewrite keys_set_in.
  - rewrite keys_set_notin by done. apply NoDup_app. split_and!; [done| |apply NoDup_singleton].
    intros x Hx ->%list_elem_of_singleton. done.
Qed.

Lemma elem_of_keys_set k k' v d :
  k' ∈ Od.keys (Od.set k v d) ↔ k' = k ∨ k' ∈ Od.keys d.
Proof.
  destruct (decide (k ∈ Od.keys d)) as [Hin|Hin].
  - rewrite keys_set_in by done. naive_solver.
  - rewrite keys_set_notin, elem_of_app, list_elem_of_singleton by done.
    naive_solver.
Qed.
End od_facts.
End OdFacts.

(** ** The row extractor on the example table *)

(** C6. On the two-row table whose district cell is followed by empty
    cells, the row extractor returns no district, the URL of the second
    row and the issues flag; a Part-1 file that reads as this table gives a
    record with [needs_review = true], no district and that URL. *)
Theorem extract_from_rows_example :
  extract_from_rows example_rows = (None, Some "https://arcg.is/ABC123", true)
  ∧ ∀ (w : world) (s : state) (filename : string),
      Py.startswith "." filename = false →
      read_csv w filename = CsvRows example_rows →
      ∃ r : record,
        Od.get (Py.before_first "_" filename)
          (records (part1_step w s filename)) = Some r
        ∧ r !! "needs_review" = Some (PyBool true)
        ∧ r !! "community_district" = Some PyNone
        ∧ r !! "storymap_url" = Some (PyStr "https://arcg.is/ABC123").
Proof.
  split; [reflexivity|].
  intros w s filename Hdot Hcsv.
  unfold part1_step. rewrite Hdot.
  unfold read_part1. rewrite Hcsv.
  change (strict_check example_rows) with (Done (A:=bool) true).
  change (extract_from_rows example_rows)
    with (@None string, Some "https://arcg.is/ABC123", true).
  eexists. split; [apply OdFacts.get_set_eq|].
  by vm_compute.
Qed.

Lemma extract_from_rows_example_witness :
  ∃ r : record,
    Od.get "ada"
      (records (part1_step
         (World (Some ["ada_checklist.csv"]) (λ _, CsvRows example_rows)
            (λ _, PandasError "unused") None (λ _, ReadError "unused"))
         (State [] []) "ada_checklist.csv")) = Some r
    ∧ r !! "needs_review" = Some (PyBool true)
    ∧ r !! "community_district" = Some PyNone
    ∧ r !! "storymap_url" = Some (PyStr "https://arcg.is/ABC123").
Proof.
  apply (proj2 extract_from_rows_example
           (World (Some ["ada_checklist.csv"]) (λ _, CsvRows example_rows)
              (λ _, PandasError "unused") None (λ _, ReadError "unused"))
           (State [] []) "ada_checklist.csv"); reflexivity.
Defined.

(** ** The URL extractor *)

(** C7. The URL extractor returns the anchor's [href] when the anchor
    pattern matches, and searches for the meta-refresh [url=] only when it
    does not; on the example tag, in which no anchor matches, it returns
    ["https://arcg.is/XYZ789"]; on a read error it returns no URL (and logs
    one line) instead of raising. *)
Theorem extract_url_from_html_order :
  (∀ filepath content u,
     Re.search anchor_re content = Some u →
     extract_url_from_html filepath (ReadOk content) = (Some u, []))
  ∧ (∀ filepath content,
       Re.search anchor_re content = None →
       extract_url_from_html filepath (ReadOk content)
       = (Re.search meta_re content, []))
  ∧ Re.search anchor_re example_meta = None
  ∧ (∀ filepath,
       extract_url_from_html filepath (ReadOk example_meta)
       = (Some "https://arcg.is/XYZ789", []))
  ∧ (∀ filepath exc,
       extract_url_from_html filepath (ReadError exc)
       = (None, ["HTML FAIL: " +:+ filepath +:+ " - " +:+ exc])).
Proof.
  split_and!.
  - intros filepath content u H. unfold extract_url_from_html. by rewrite H.
  - intros filepath content H. unfold extract_url_from_html. rewrite H.
    by destruct (Re.search meta_re content).
  - by vm_compute.
  - intros filepath. by vm_compute.
  - done.
Qed.

Lemma extract_url_from_html_order_witness :
  extract_url_from_html "lecture_checklists/cdspec_2/ada_link.html"
    (ReadOk "<a class='btn' href='https://arcg.is/15KnDO0'>StoryMap</a>")
  = (Some "https://arcg.is/15KnDO0", [])
  ∧ extract_url_from_html "lecture_checklists/cdspec_2/ada_link.html"
      (ReadOk example_meta)
    = (Re.search meta_re example_meta, []).
Proof.
  split.
  - apply (proj1 extract_url_from_html_order). by vm_compute.
  - apply (proj1 (proj2 extract_url_from_html_order)). by vm_compute.
Defined.

(** ** The worklist of the screenshotter *)

(** C4, as stated, fails: the extractor writes a record whose
    [storymap_url] is [None], and the worklist of that record has no
    [part1] entry (it is empty). *)
Lemma urls_to_process_no_part1 :
  (∃ lg, process_files world_without_url = Done (State [("ada", record_without_url)] lg))
  ∧ Scrape.urls_to_process record_without_url = []
  ∧ ¬ ∃ url, ("part1", url) ∈ Scrape.urls_to_process record_without_url.
Proof.
  split_and!.
  - eexists. by vm_compute.
  - by vm_compute.
  - intros [url H]. vm_compute in H. by apply elem_of_nil in H.
Qed.

(** C4, amended. The worklist of a record holds [("part1", storymap_url)]
    exactly when [storymap_url] is true (present, not [None], not empty),
    and [("part2", storymap_url_2)] exactly when [url_mismatch] is true and
    [storymap_url_2] is true; it holds nothing else, at most two entries,
    and [part1] comes before [part2]. *)
Theorem urls_to_process_spec (r : record) :
  (∀ label url,
     (label, url) ∈ Scrape.urls_to_process r ↔
       (label = "part1" ∧ url = py_get r "storymap_url" ∧ py_truthy url = true)
       ∨ (label = "part2" ∧ url = py_get r "storymap_url_2"
          ∧ py_truthy (py_get r "url_mismatch") = true ∧ py_truthy url = true))
  ∧ (∀ i j u1 u2,
       Scrape.urls_to_process r !! i = Some ("part1", u1) →
       Scrape.urls_to_process r !! j = Some ("part2", u2) →
       i < j)
  ∧ length (Scrape.urls_to_process r) ≤ 2.
Proof.
  unfold Scrape.urls_to_process.
  destruct (py_truthy (py_get r "storymap_url")) eqn:H1,
    (py_truthy (py_get r "url_mismatch")) eqn:Hm,
    (py_truthy (py_get r "storymap_url_2")) eqn:H2;
    (split_and!; [intros label url | intros i j u1 u2 | simpl; lia]);
    simpl; rewrite ?elem_of_cons, ?elem_of_nil;
    try (split; [intros H; destruct_or?; simplify_eq; try done; auto
                | intros [(-> & -> & ?)|(-> & -> & ? & ?)]; try congruence; auto]);
    try (destruct i as [|[|i]], j as [|[|j]]; simpl; intros; simplify_eq; lia).
Qed.

Lemma urls_to_process_spec_witness :
  let r : record :=
    list_to_map [("student", PyStr "ada"); ("storymap_url", PyStr "https://arcg.is/1");
                 ("storymap_url_2", PyStr "https://arcg.is/2");
                 ("url_mismatch", PyBool true)] in
  ("part2", PyStr "https://arcg.is/2") ∈ Scrape.urls_to_process r ∧ 0 < 1.
Proof.
  intros r. split.
  - apply (proj1 (urls_to_process_spec r)). right. by vm_compute.
  - apply (proj1 (proj2 (urls_to_process_spec r)) 0 1 (PyStr "https://arcg.is/1")
             (PyStr "https://arcg.is/2")); reflexivity.
Defined.

(** ** A missing input directory *)

(** C5, on the code. When the Part-2 directory is absent the run ends in
    the state Part 1 left: nothing is logged about the absence. (When the
    Part-1 directory is absent the one [CRITICAL] line is logged and Part 2
    runs on the empty records.) *)
Theorem missing_part2_dir_not_logged :
  (∀ w, dir2 w = None → process_files w = Done (part1 w (State [] [])))
  ∧ process_files (World (Some []) (λ _, CsvError "unused")
                     (λ _, PandasError "unused") None (λ _, ReadError "unused"))
    = Done (State [] [])
  ∧ (∀ w, dir1 w = None →
       part1 w (State [] [])
       = State [] ["CRITICAL: Directory not found: lecture_checklists/cdspec_1"]
       ∧ process_files w
         = part2 w (State [] ["CRITICAL: Directory not found: lecture_checklists/cdspec_1"])).
Proof.
  split_and!.
  - intros w H. unfold process_files, part2. by rewrite H.
  - by vm_compute.
  - intros w H. unfold process_files, part1. by rewrite H.
Qed.

Lemma missing_part2_dir_not_logged_witness :
  process_files (World None (λ _, CsvError "unused") (λ _, PandasError "unused")
                   None (λ _, ReadError "unused"))
  = Done (State [] ["CRITICAL: Directory not found: lecture_checklists/cdspec_1"]).
Proof.
  set (w := World None (λ _, CsvError "unused") (λ _, PandasError "unused")
              None (λ _, ReadError "unused")).
  rewrite (proj1 missing_part2_dir_not_logged w eq_refl).
  reflexivity.
Defined.

(** ** Re-running the screenshotter *)

Module ScrapeFacts.
Import Scrape.

Lemma untouched_refl s : untouched s s.
Proof. by unfold untouched. Qed.

Lemma untouched_trans s1 s2 s3 : untouched s1 s2 → untouched s2 s3 → untouched s1 s3.
Proof.
  unfold untouched. intros (-> & -> & -> & ?) (-> & -> & -> & ?).
  split_and!; try done. set_solver.
Qed.

Lemma untouched_print line s : untouched s (print line s).
Proof. by unfold untouched. Qed.

Lemma untouched_makedirs path s : untouched s (makedirs path s).1.
Proof.
  unfold makedirs. case_bool_decide; simpl; [apply untouched_refl|].
  unfold untouched; simpl. split_and!; try done. set_solver.
Qed.

Lemma path_exists_untouched path s s' :
  untouched s s' → path_exists path s = true → path_exists path s' = true.
Proof.
  unfold untouched, path_exists. intros (-> & _ & _ & Hd).
  rewrite !orb_true_iff, !bool_decide_eq_true. set_solver.
Qed.

Lemma scrape_url_existing b student_dir s label url :
  path_exists (output_path student_dir label) s = true →
  scrape_url b student_dir s (label, url)
  = print ("  - Skipping " +:+ label +:+ " (already exists)") s.
Proof. unfold scrape_url, output_path. by intros ->. Qed.

Lemma scrape_urls_existing b student_dir urls s0 s :
  untouched s0 s →
  (∀ label url, (label, url) ∈ urls →
     path_exists (output_path student_dir label) s0 = true) →
  untouched s0 (foldl (scrape_url b student_dir) s urls).
Proof.
  revert s. induction urls as [|[label url] urls IH]; intros s Hs Hex; cbn [foldl]; [done|].
  apply IH.
  - rewrite scrape_url_existing.
    + eapply untouched_trans; [done | apply untouched_print].
    + eapply path_exists_untouched; [done|]. eapply Hex, list_elem_of_here.
  - intros l u Hin. eapply Hex, list_elem_of_further, Hin.
Qed.

Lemma scrape_record_existing b s0 s student_record :
  untouched s0 s →
  (∀ name label url,
     py_get student_record "student" = PyStr name →
     (label, url) ∈ urls_to_process student_record →
     path_exists (output_path (path_join OUTPUT_DIR name) label) s0 = true) →
  untouched s0 (scrape_record b s student_record).1.
Proof.
  intros Hs Hex. unfold scrape_record.
  destruct (py_truthy (py_get student_record "student")); simpl; [|done].
  destruct (py_get student_record "student") as [|flag|name] eqn:Hname; simpl.
  - eapply untouched_trans; [done | apply untouched_print].
  - eapply untouched_trans; [done | apply untouched_print].
  - set (s1 := print _ s).
    assert (untouched s0 s1) as Hs1
      by (eapply untouched_trans; [done | apply untouched_print]).
    pose proof (untouched_makedirs (path_join OUTPUT_DIR name) s1) as Hmk.
    destruct (makedirs (path_join OUTPUT_DIR name) s1) as [s2 [exc|]]; simpl in *.
    + by eapply untouched_trans.
    + apply scrape_urls_existing; [by eapply untouched_trans|].
      intros label url Hin. by eapply Hex.
Qed.

Lemma scrape_records_existing b data s0 s :
  untouched s0 s →
  (∀ student_record name label url,
     student_record ∈ data →
     py_get student_record "student" = PyStr name →
     (label, url) ∈ urls_to_process student_record →
     path_exists (output_path (path_join OUTPUT_DIR name) label) s0 = true) →
  untouched s0 (scrape_records b data s).1.
Proof.
  revert s. induction data as [|r data IH]; intros s Hs Hex; simpl; [done|].
  pose proof (scrape_record_existing b s0 s r Hs) as Hr.
  destruct (scrape_record b s r) as [s1 [exc|]]; simpl in *.
  - apply Hr. intros name label url. apply Hex, list_elem_of_here.
  - apply IH.
    + apply Hr. intros name label url. apply Hex, list_elem_of_here.
    + intros r' name label url Hin. by apply Hex, list_elem_of_further.
Qed.

End ScrapeFacts.

(** C8. A worklist entry whose output image exists is skipped: one line
    is printed, no page is opened and no file is written. So when the
    image of every worklist entry of every record exists, a run of the
    screenshotter, however it ends, calls [page.goto] not once more, enters
    no [try] block and leaves the files with their content. *)
Theorem scrape_existing_untouched :
  (∀ b student_dir s label url,
     Scrape.path_exists (output_path student_dir label) s = true →
     Scrape.scrape_url b student_dir s (label, url)
     = Scrape.print ("  - Skipping " +:+ label +:+ " (already exists)") s)
  ∧ (∀ b data s,
       (∀ student_record name label url,
          student_record ∈ data →
          py_get student_record "student" = PyStr name →
          (label, url) ∈ Scrape.urls_to_process student_record →
          Scrape.path_exists
            (output_path (path_join Scrape.OUTPUT_DIR name) label) s = true) →
       let s' := (Scrape.scrape_storymaps b data s).1 in
       Scrape.navigations s' = Scrape.navigations s
       ∧ Scrape.attempts s' = Scrape.attempts s
       ∧ Scrape.files s' = Scrape.files s).
Proof.
  split; [apply ScrapeFacts.scrape_url_existing|].
  intros b data s Hex s'.
  assert (untouched s s') as (? & ? & ? & _); [|done].
  subst s'. unfold Scrape.scrape_storymaps.
  pose proof (ScrapeFacts.untouched_makedirs Scrape.OUTPUT_DIR s) as Hmk.
  destruct (Scrape.makedirs Scrape.OUTPUT_DIR s) as [s1 [exc|]]; simpl in *; [done|].
  by apply ScrapeFacts.scrape_records_existing.
Qed.

Lemma scrape_existing_untouched_witness :
  let r : record :=
    list_to_map [("student", PyStr "ada"); ("storymap_url", PyStr "https://arcg.is/1")] in
  let s :=
    Scrape.State {["processing/storymaps_archive/ada/part1.png" := "image"]}
      ∅ [] 0 [] in
  let s' := (Scrape.scrape_storymaps (λ _ _, Scrape.Saved "other") [r] s).1 in
  Scrape.navigations s' = [] ∧ Scrape.attempts s' = 0
  ∧ Scrape.files s' = {["processing/storymaps_archive/ada/part1.png" := "image"]}.
Proof.
  intros r s.
  apply (proj2 scrape_existing_untouched (λ _ _, Scrape.Saved "other") [r] s).
  intros student_record name label url ->%list_elem_of_singleton Hname Hin.
  vm_compute in Hname. injection Hname as <-.
  vm_compute in Hin. apply list_elem_of_singleton in Hin. injection Hin as -> _.
  by vm_compute.
Defined.

(** ** Files the extractor passes over *)

Lemma part1_step_skip w s filename : runs1 filename = false → part1_step w s filename = s.
Proof.
  unfold runs1, part1_step. intros H%negb_false_iff. by rewrite H.
Qed.

Lemma part2_step_skip w s filename :
  runs2 filename = false → part2_step w s filename = Done s.
Proof.
  unfold runs2, part2_step. intros H%negb_false_iff. by rewrite H.
Qed.

Lemma StronglySorted_filter {A} (R : relation A) (P : A → Prop)
    `{∀ x, Decision (P x)} (l : list A) :
  StronglySorted R l → StronglySorted R (filter P l).
Proof.
  induction 1 as [|x l Hl IH Hx]; [constructor|].
  rewrite filter_cons. case_decide; [|done].
  constructor; [done|].
  rewrite Forall_forall in Hx. apply Forall_forall.
  intros y [_ Hy]%list_elem_of_filter. by apply Hx.
Qed.

Lemma sort_names_filter (P : string → Prop) `{∀ x, Decision (P x)} (l : list string) :
  sort_names (filter P l) = filter P (sort_names l).
Proof.
  unfold sort_names. apply (StronglySorted_unique String.le).
  - apply StronglySorted_merge_sort; apply _.
  - apply StronglySorted_filter, StronglySorted_merge_sort; apply _.
  - by rewrite !merge_sort_Permutation.
Qed.

Lemma foldl_part1_step_filter w l s :
  foldl (part1_step w) s (filter (λ f, runs1 f = true) l) = foldl (part1_step w) s l.
Proof.
  revert s. induction l as [|f l IH]; intros s; [done|].
  rewrite filter_cons. cbn [foldl]. case_decide as Hf.
  - cbn [foldl]. apply IH.
  - rewrite part1_step_skip by by destruct (runs1 f). apply IH.
Qed.

Lemma part2_loop_filter w l s :
  part2_loop w (filter (λ f, runs2 f = true) l) s = part2_loop w l s.
Proof.
  revert s. induction l as [|f l IH]; intros s; [done|].
  rewrite filter_cons. cbn [part2_loop]. case_decide as Hf.
  - cbn [part2_loop]. destruct (part2_step w s f); simpl; [apply IH | done].
  - rewrite part2_step_skip by by destruct (runs2 f). simpl. apply IH.
Qed.

(** The iterations read the files through [read_csv], [read_pandas] and
    [read_html] only. *)
Lemma foldl_part1_step_reads w w' l s :
  read_csv w' = read_csv w → read_pandas w' = read_pandas w →
  foldl (part1_step w') s l = foldl (part1_step w) s l.
Proof.
  intros Hc Hp. revert s. induction l as [|f l IH]; intros s; [done|].
  cbn [foldl]. rewrite IH. f_equal.
  unfold part1_step, read_part1, pandas_fallback. by rewrite Hc, Hp.
Qed.

Lemma part2_loop_reads w w' l s :
  read_html w' = read_html w → part2_loop w' l s = part2_loop w l s.
Proof.
  intros Hh. revert s. induction l as [|f l IH]; intros s; [done|].
  cbn [part2_loop]. unfold part2_step. rewrite Hh.
  destruct (_ || _); simpl; [apply IH|].
  destruct (extract_url_from_html _ _) as [url_2 lines].
  destruct (negb _); simpl; [apply IH|].
  destruct (part2_merge _ _ _); simpl; [apply IH | done].
Qed.

(** C10. A file whose name starts with a dot, in either directory, and a
    file of the second directory whose name does not end in [.html], leave
    the records and the log as they are; and a run gives the same records
    and the same log as the run on the listings without these files. *)
Theorem skipped_files_leave_no_trace :
  (∀ w s filename,
     Py.startswith "." filename = true → part1_step w s filename = s)
  ∧ (∀ w s filename,
       Py.startswith "." filename = true ∨ Py.endswith ".html" filename = false →
       part2_step w s filename = Done s)
  ∧ (∀ w, process_files w = process_files (without_skipped w)).
Proof.
  split_and!.
  - intros w s filename H. apply part1_step_skip. unfold runs1. by rewrite H.
  - intros w s filename H. apply part2_step_skip. unfold runs2.
    destruct H as [-> | ->]; [done|]. by rewrite orb_true_r.
  - intros w. unfold process_files.
    assert (∀ s, part1 (without_skipped w) s = part1 w s) as ->.
    { intros s. unfold part1. simpl. destruct (dir1 w) as [files|]; simpl; [|done].
      rewrite sort_names_filter, foldl_part1_step_filter.
      by apply foldl_part1_step_reads. }
    unfold part2. simpl. destruct (dir2 w) as [files2|]; simpl; [|done].
    rewrite sort_names_filter, part2_loop_filter.
    symmetry. by apply part2_loop_reads.
Qed.

Lemma skipped_files_leave_no_trace_witness :
  part1_step world_without_url (State [] ["kept"]) ".DS_Store" = State [] ["kept"]
  ∧ part2_step world_without_url (State [] ["kept"]) "ada_notes.txt"
    = Done (State [] ["kept"]).
Proof.
  split.
  - apply (proj1 skipped_files_leave_no_trace). reflexivity.
  - apply (proj1 (proj2 skipped_files_leave_no_trace)). right. reflexivity.
Defined.

(** ** One identifier through Part 2 *)

(** The iterations of Part 2 change the record of one identifier at a
    time. The definitions below follow one record through them. *)

Lemma part2_merge_view k url_2 s :
  match next_record k (Some url_2) (Od.get k (records s)) with
  | Done o =>
      Py.nonempty url_2 = true →
      ∃ lg, part2_merge k url_2 s = Done (State (put k o (records s)) lg)
  | Raised e => Py.nonempty url_2 = true → part2_merge k url_2 s = Raised e
  end.
Proof.
  unfold next_record, part2_merge, merged. simpl.
  destruct (Py.nonempty url_2) eqn:Hu; simpl; [|by destruct (Od.get _ _); simpl; repeat case_match].
  destruct (Od.get k (records s)) as [r|]; simpl; [|by eexists].
  fold (attached url_2 r).
  destruct (clean_if (py_get (attached url_2 r) "storymap_url")) as [u1|e]; simpl; [|done].
  destruct (negb (Py.nonempty u1) && Py.nonempty (url_clean url_2)); simpl;
    [intros _; by eexists|].
  destruct (Py.nonempty u1 && Py.nonempty (url_clean url_2) && _); simpl;
    intros _; by eexists.
Qed.

Lemma part2_step_view w s filename :
  runs2 filename = true →
  match next_record (student_of filename) (url_of w filename)
          (Od.get (student_of filename) (records s)) with
  | Done o =>
      ∃ lg, part2_step w s filename
            = Done (State (put (student_of filename) o (records s)) lg)
  | Raised e => part2_step w s filename = Raised e
  end.
Proof.
  intros Hruns. unfold part2_step, runs2 in *.
  apply negb_true_iff in Hruns. rewrite Hruns.
  unfold url_of. fold (student_of filename).
  destruct (extract_url_from_html _ _) as [url_2 lines]; simpl.
  destruct (Py.truthy url_2) eqn:Hu; simpl.
  - destruct url_2 as [u|]; [simpl in Hu|done].
    pose proof (part2_merge_view (student_of filename) u (log_all lines s)) as H.
    simpl in H. unfold next_record in *. simpl in *. rewrite Hu in *. simpl in *.
    destruct (Od.get _ _) as [r|]; simpl in *.
    + destruct (merged u r); simpl in *; auto.
    + auto.
  - unfold next_record. rewrite Hu. simpl. unfold part2_no_url. simpl.
    destruct (Od.get _ _) as [r|]; simpl; by eexists.
Qed.

Lemma url_clean_empty : url_clean EmptyString = EmptyString.
Proof. reflexivity. Qed.

Lemma clean_if_typed r : typed r → clean_if (py_get r "storymap_url") = Done (cleaned (py_get r "storymap_url")).
Proof.
  unfold typed. destruct (py_get r "storymap_url") as [|b|u]; simpl; try done.
  unfold Py.nonempty. case_bool_decide as Hu; simpl; [by rewrite Hu|done].
Qed.

Lemma get_url_attached url_2 r :
  py_get (attached url_2 r) "storymap_url" = py_get r "storymap_url".
Proof. by map_lookup. Qed.

Lemma merged_cases url_2 r :
  typed r →
  let u1 := cleaned (py_get r "storymap_url") in
  let u2 := url_clean url_2 in
  merged url_2 r
  = Done (if negb (Py.nonempty u1) && Py.nonempty u2
          then <["storymap_url" := PyStr url_2]> (attached url_2 r)
          else if Py.nonempty u1 && Py.nonempty u2 && negb (bool_decide (u1 = u2))
               then <["url_mismatch" := PyBool true]> (attached url_2 r)
               else attached url_2 r).
Proof.
  intros Ht u1 u2. unfold merged.
  rewrite get_url_attached, clean_if_typed by done. simpl. fold u1.
  assert ((if Py.nonempty url_2 then url_clean url_2 else EmptyString) = u2) as ->.
  { unfold Py.nonempty. case_bool_decide as Hu; simpl; [by subst|done]. }
  by repeat case_match.
Qed.

Lemma merged_typed url_2 r : typed r → ∃ r', merged url_2 r = Done r' ∧ typed r'.
Proof.
  intros Ht. rewrite merged_cases by done. eexists; split; [done|].
  destruct (negb _ && _); [|destruct (_ && _ && _)];
    unfold typed in *; by map_lookup.
Qed.

Lemma part2_new_record_typed k u : typed (part2_new_record k u).
Proof. by vm_compute. Qed.

Lemma next_record_typed k url_2 o :
  (∀ r, o = Some r → typed r) →
  ∃ o', next_record k url_2 o = Done o' ∧ (∀ r, o' = Some r → typed r).
Proof.
  intros Ht. unfold next_record. destruct (negb _); simpl.
  - eexists; split; [done|]. intros r' Hr'.
    destruct o as [r|]; simplify_eq/=. specialize (Ht r eq_refl).
    unfold typed in *. by map_lookup.
  - destruct o as [r|]; simpl.
    + destruct (merged_typed (default EmptyString url_2) r) as (r' & -> & Hr'); [auto|].
      simpl. eexists; split; [done|]. by intros ? [= <-].
    + eexists; split; [done|]. intros ? [= <-]. apply part2_new_record_typed.
Qed.

Lemma next_record_None k url_2 o : next_record k url_2 o = Done None → o = None.
Proof.
  unfold next_record. destruct (negb _), o as [r|]; simpl; try done.
  by destruct (merged _ _).
Qed.

Lemma get_put k o (d : list (string * record)) :
  (o = None → Od.get k d = None) → Od.get k (put k o d) = o.
Proof.
  destruct o as [r|]; simpl; [intros _; apply OdFacts.get_set_eq | auto].
Qed.

Lemma get_put_ne k k' o (d : list (string * record)) :
  k ≠ k' → Od.get k' (put k o d) = Od.get k' d.
Proof. destruct o; simpl; [apply OdFacts.get_set_ne | done]. Qed.

Lemma NoDup_keys_put k o (d : list (string * record)) :
  NoDup (Od.keys d) → NoDup (Od.keys (put k o d)).
Proof. destruct o; simpl; [apply OdFacts.NoDup_keys_set | done]. Qed.

Lemma own_cons_in k f files2 :
  runs2 f = true → student_of f = k → own k (f :: files2) = f :: own k files2.
Proof. intros. unfold own. by rewrite filter_cons_True. Qed.

Lemma own_cons_out k f files2 :
  ¬ (runs2 f = true ∧ student_of f = k) → own k (f :: files2) = own k files2.
Proof. intros. unfold own. by rewrite filter_cons_False. Qed.

(** Part 2 runs to its end on records whose primary URLs are [None] or
    strings, and the record of each identifier is what the files of that
    identifier make of it, in the order of the listing. *)
Lemma part2_loop_view w files2 s :
  (∀ k r, Od.get k (records s) = Some r → typed r) →
  ∃ s', part2_loop w files2 s = Done s'
        ∧ (∀ k, fold_next k (own_urls w k files2) (Od.get k (records s))
                = Done (Od.get k (records s')))
        ∧ (NoDup (Od.keys (records s)) → NoDup (Od.keys (records s'))).
Proof.
  revert s. induction files2 as [|f files2 IH]; intros s Ht.
  { exists s. by split_and!. }
  cbn [part2_loop]. destruct (runs2 f) eqn:Hruns.
  - pose proof (part2_step_view w s f Hruns) as Hview.
    destruct (next_record_typed (student_of f) (url_of w f)
                (Od.get (student_of f) (records s))) as (o & Ho & Hto); [by eauto|].
    rewrite Ho in Hview. destruct Hview as [lg ->]. simpl.
    destruct (IH (State (put (student_of f) o (records s)) lg)) as (s' & -> & Hfold & Hnd).
    { simpl. intros k r. destruct (decide (student_of f = k)) as [<-|Hne].
      - rewrite get_put by (intros ->; by apply next_record_None in Ho). auto.
      - rewrite get_put_ne by done. apply Ht. }
    exists s'. split_and!; [done| |].
    + intros k. specialize (Hfold k). simpl in Hfold. unfold own_urls in *.
      destruct (decide (student_of f = k)) as [<-|Hne].
      * rewrite own_cons_in by done. simpl. rewrite Ho. simpl.
        by rewrite get_put in Hfold by (intros ->; by apply next_record_None in Ho).
      * rewrite own_cons_out by naive_solver. by rewrite get_put_ne in Hfold.
    + intros Hs. apply Hnd. simpl. by apply NoDup_keys_put.
  - rewrite part2_step_skip by done. simpl.
    destruct (IH s Ht) as (s' & -> & Hfold & Hnd). exists s'. split_and!; [done| |done].
    intros k. unfold own_urls. rewrite own_cons_out by (intros [? _]; congruence).
    apply Hfold.
Qed.

(** ** Part 1, one identifier at a time *)

Lemma part1_step_get w s filename k :
  Od.get k (records (part1_step w s filename))
  = if decide (runs1 filename = true ∧ student_of filename = k)
    then Some (part1_record_of w filename)
    else Od.get k (records s).
Proof.
  unfold part1_step, runs1. destruct (Py.startswith "." filename); simpl; [done|].
  fold (student_of filename). case_decide as Hk.
  - destruct Hk as [_ <-]. apply OdFacts.get_set_eq.
  - apply OdFacts.get_set_ne. naive_solver.
Qed.

Lemma part1_step_NoDup w s filename :
  NoDup (Od.keys (records s)) → NoDup (Od.keys (records (part1_step w s filename))).
Proof.
  unfold part1_step. destruct (Py.startswith "." filename); simpl; [done|].
  apply OdFacts.NoDup_keys_set.
Qed.

Lemma part1_loop_view w files s :
  let s' := foldl (part1_step w) s files in
  (NoDup (Od.keys (records s)) → NoDup (Od.keys (records s')))
  ∧ (∀ k, is_Some (Od.get k (records s')) ↔
          is_Some (Od.get k (records s))
          ∨ ∃ f, f ∈ files ∧ runs1 f = true ∧ student_of f = k)
  ∧ ((∀ k r, Od.get k (records s) = Some r → part1_shaped k r) →
     ∀ k r, Od.get k (records s') = Some r → part1_shaped k r).
Proof.
  revert s. induction files as [|f files IH]; intros s; cbn [foldl].
  { split_and!; [done| |done]. intros k. set_solver. }
  destruct (IH (part1_step w s f)) as (Hnd & Hsome & Hshape). split_and!.
  - intros H. by apply Hnd, part1_step_NoDup.
  - intros k. rewrite Hsome, part1_step_get. case_decide as Hk.
    + split; [intros _|by eauto]. right. exists f. split; [apply list_elem_of_here|done].
    + split.
      * intros [?|(f' & ? & ?)]; [by left|]. right. exists f'.
        split; [by apply list_elem_of_further|done].
      * intros [?|(f' & [->|?]%elem_of_cons & ?)]; [by left|done|].
        right. by exists f'.
  - intros Hs. apply Hshape. intros k r. rewrite part1_step_get. case_decide as Hk.
    + intros [= <-]. destruct Hk as [_ <-]. by eexists.
    + apply Hs.
Qed.

Lemma elem_of_sort_names f files : f ∈ sort_names files ↔ f ∈ files.
Proof. unfold sort_names. by rewrite merge_sort_Permutation. Qed.

(** The records when Part 1 is over. *)
Lemma part1_view w :
  let s1 := part1 w (State [] []) in
  NoDup (Od.keys (records s1))
  ∧ (∀ k, is_Some (Od.get k (records s1)) ↔
          ∃ f, f ∈ default [] (dir1 w) ∧ runs1 f = true ∧ student_of f = k)
  ∧ (∀ k r, Od.get k (records s1) = Some r → part1_shaped k r).
Proof.
  unfold part1. destruct (dir1 w) as [files|]; simpl.
  - destruct (part1_loop_view w (sort_names files) (State [] [])) as (Hnd & Hsome & Hshape).
    split_and!.
    + apply Hnd. simpl. constructor.
    + intros k. rewrite Hsome. simpl. setoid_rewrite elem_of_sort_names.
      split; [intros [[? [=]]|?]; done | by right].
    + by apply Hshape.
  - split_and!; [constructor| |done].
    intros k. simpl. split; [by intros [? [=]] | intros (f & Hf & _)]. by apply elem_of_nil in Hf.
Qed.

Lemma part1_shaped_typed k r : part1_shaped k r → typed r.
Proof.
  intros [[cd url nr lg] ->]. unfold typed, py_get, part1_record. simpl.
  by destruct url; vm_compute.
Qed.

(** The run as a whole: it ends, the keys of [records] are distinct, and
    the record of each identifier is what the Part-2 files of that
    identifier make of its Part-1 record. *)
Lemma process_files_view w :
  ∃ s, process_files w = Done s
       ∧ NoDup (Od.keys (records s))
       ∧ ∀ k, fold_next k (own_urls w k (files2 w))
                (Od.get k (records (part1 w (State [] []))))
              = Done (Od.get k (records s)).
Proof.
  destruct (part1_view w) as (Hnd & _ & Hshape).
  unfold process_files, part2, files2.
  destruct (dir2 w) as [l|]; simpl.
  - destruct (part2_loop_view w (sort_names l) (part1 w (State [] []))) as (s & Hs & Hfold & Hnd').
    { intros k r Hr. eapply part1_shaped_typed, Hshape, Hr. }
    exists s. split_and!; auto.
  - eexists. split_and!; [done|done|]. intros k. reflexivity.
Qed.

(** ** Invariants of one record through Part 2 *)

Lemma fold_next_inv k (P : list (option string) → option record → Prop) :
  (∀ hist o u o', P hist o → next_record k u o = Done o' → P (hist ++ [u]) o') →
  ∀ urls hist o o', P hist o → fold_next k urls o = Done o' → P (hist ++ urls) o'.
Proof.
  intros Hstep urls. induction urls as [|u urls IH]; intros hist o o' HP; simpl.
  - intros [= <-]. by rewrite app_nil_r.
  - destruct (next_record k u o) as [o1|] eqn:Ho1; simpl; [|done].
    intros Hrest. rewrite cons_middle, app_assoc. eapply IH; [|done]. eauto.
Qed.

Lemma bearing_snoc hist u :
  bearing (hist ++ [u]) = bearing hist + (if Py.truthy u then 1 else 0).
Proof.
  unfold bearing. rewrite filter_app, length_app. f_equal.
  rewrite filter_cons, filter_nil. destruct (Py.truthy u); by case_decide.
Qed.

Lemma nonempty_true s : Py.nonempty s = true ↔ s ≠ EmptyString.
Proof. unfold Py.nonempty. rewrite negb_true_iff, bool_decide_eq_false. done. Qed.

Lemma nonempty_false s : Py.nonempty s = false ↔ s = EmptyString.
Proof. unfold Py.nonempty. rewrite negb_false_iff, bool_decide_eq_true. done. Qed.

Lemma mismatch_inv_part1 k r : part1_shaped k r → mismatch_inv [] (Some r).
Proof.
  intros Hshape r' [= <-]. split; [by eapply part1_shaped_typed|].
  destruct Hshape as [v ->].
  assert (part1_record k v !! "url_mismatch" = None) as Hflag by by vm_compute.
  assert (py_get (part1_record k v) "storymap_url_2" = PyNone) as Hu2 by by vm_compute.
  unfold flag, differ. rewrite Hflag, Hu2. simpl. naive_solver.
Qed.

Lemma mismatch_inv_step k hist o u o' :
  mismatch_inv hist o → next_record k u o = Done o' → mismatch_inv (hist ++ [u]) o'.
Proof.
  intros Hinv Hnext r' ->. unfold next_record in Hnext. rewrite bearing_snoc.
  destruct (Py.truthy u) eqn:Hu; simpl in Hnext.
  - destruct o as [r|]; simpl in Hnext.
    + destruct (Hinv r eq_refl) as (Ht & H1 & H2 & H3 & H4).
      rewrite merged_cases in Hnext by done. simpl in Hnext.
      injection Hnext as Hr'.
      unfold flag, differ in *.
      set (c1 := cleaned (py_get r "storymap_url")) in *.
      set (url_2 := default EmptyString u) in *.
      set (c2 := url_clean url_2) in *.
      destruct (negb (Py.nonempty c1) && Py.nonempty c2) eqn:B1;
        [|destruct (Py.nonempty c1 && Py.nonempty c2 && negb (bool_decide (c1 = c2))) eqn:B2];
        subst r'.
      * (* primary URL missing: the Part-2 URL is promoted *)
        apply andb_true_iff in B1 as [B1a B1b].
        apply negb_true_iff, nonempty_false in B1a. apply nonempty_true in B1b.
        assert (py_get (<["storymap_url":=PyStr url_2]> (attached url_2 r)) "storymap_url"
                = PyStr url_2) as E1 by by map_lookup.
        assert (py_get (<["storymap_url":=PyStr url_2]> (attached url_2 r)) "storymap_url_2"
                = PyStr url_2) as E2 by by map_lookup.
        assert ((<["storymap_url":=PyStr url_2]> (attached url_2 r)) !! "url_mismatch"
                = r !! "url_mismatch") as Ef by by map_lookup.
        unfold typed. rewrite E1, E2, Ef. simpl. fold c2. split_and!.
        -- done.
        -- done.
        -- by intros (_ & _ & ?).
        -- lia.
        -- intros _ Hf. by destruct (H1 Hf).
      * (* both normalized forms non-empty and different: the flag is set *)
        apply andb_true_iff in B2 as [[B2a B2b]%andb_true_iff B2c].
        apply nonempty_true in B2a, B2b.
        apply negb_true_iff, bool_decide_eq_false in B2c.
        assert (py_get (<["url_mismatch":=PyBool true]> (attached url_2 r)) "storymap_url"
                = py_get r "storymap_url") as E1 by by map_lookup.
        assert (py_get (<["url_mismatch":=PyBool true]> (attached url_2 r)) "storymap_url_2"
                = PyStr url_2) as E2 by by map_lookup.
        unfold typed. rewrite E1, E2, lookup_insert_eq. simpl. fold c1 c2.
        split_and!; [done|done|done|lia|done].
      * (* neither: the Part-2 URL is attached and nothing else changes *)
        assert (py_get (attached url_2 r) "storymap_url" = py_get r "storymap_url") as E1
          by by map_lookup.
        assert (py_get (attached url_2 r) "storymap_url_2" = PyStr url_2) as E2
          by by map_lookup.
        assert (attached url_2 r !! "url_mismatch" = r !! "url_mismatch") as Ef
          by by map_lookup.
        unfold typed. rewrite E1, E2, Ef. simpl. fold c1 c2. split_and!.
        -- done.
        -- done.
        -- intros (Hd1 & Hd2 & Hd3). exfalso.
           apply nonempty_true in Hd1, Hd2. rewrite Hd1, Hd2 in B2. simpl in B2.
           by apply negb_false_iff, bool_decide_eq_true in B2.
        -- lia.
        -- intros Hle Hf. rewrite H3 in Hf by lia. done.
    + injection Hnext as <-.
      split_and!; [apply part2_new_record_typed| | |lia|].
      * intros Hf. by vm_compute in Hf.
      * intros (_ & _ & Hd). by vm_compute in Hd.
      * intros _ Hf. by vm_compute in Hf.
  - injection Hnext as Ho'. destruct o as [r|]; [|done]. injection Ho' as <-.
    destruct (Hinv r eq_refl) as (Ht & H1 & H2 & H3 & H4).
    assert (py_get (flagged r) "storymap_url" = py_get r "storymap_url") as E1
      by by map_lookup.
    assert (py_get (flagged r) "storymap_url_2" = py_get r "storymap_url_2") as E2
      by by map_lookup.
    assert (flagged r !! "url_mismatch" = r !! "url_mismatch") as Ef
      by by map_lookup.
    unfold typed, flag, differ in *. rewrite E1, E2, Ef, Nat.add_0_r. done.
Qed.

Lemma merged_lookup url_2 r r' key :
  merged url_2 r = Done r' →
  key ≠ "storymap_url" → key ≠ "storymap_url_2" → key ≠ "part_2_completed" →
  key ≠ "url_mismatch" →
  r' !! key = r !! key.
Proof.
  unfold merged. destruct (clean_if _) as [u1|]; simpl; [|done].
  intros Hr' ????.
  destruct (negb _ && _); [|destruct (_ && _ && _)]; injection Hr' as <-;
    unfold attached; by rewrite !lookup_insert_ne by done.
Qed.

Lemma student_inv_step k o u o' :
  student_inv k o → next_record k u o = Done o' → student_inv k o'.
Proof.
  intros Hinv Hnext r' ->. unfold next_record in Hnext.
  destruct (negb _), o as [r|]; simplify_eq/=.
  - rewrite <-(Hinv r eq_refl). by map_lookup.
  - destruct (merged _ r) as [r1|] eqn:Hm; simplify_eq/=.
    rewrite (merged_lookup _ _ _ "student" Hm) by done. by apply Hinv.
  - by vm_compute.
Qed.

Lemma student_inv_part1 k r : part1_shaped k r → student_inv k (Some r).
Proof. intros [v ->] ? [= <-]. by vm_compute. Qed.

Lemma next_record_is_Some k u o o' :
  next_record k u o = Done o' → (is_Some o' ↔ is_Some o ∨ Py.truthy u = true).
Proof.
  unfold next_record. destruct (Py.truthy u), o as [r|]; simpl.
  - destruct (merged _ r); intros; simplify_eq/=. split; eauto.
  - intros [= <-]. split; eauto.
  - intros [= <-]. split; eauto.
  - intros [= <-]. split; [by intros [? [=]] | intros [[? [=]]|[=]]].
Qed.

Lemma keys_inv_part1 k r : part1_shaped k r → keys_inv [] (Some r).
Proof.
  intros [v ->] ? [= <-]. split.
  - intros H. vm_compute in H. destruct H as [[? [=]]|[[? [=]]|[[? [=]]|[? [=]]]]].
  - intros H. vm_compute in H. by destruct H as [? [=]].
Qed.

Lemma keys_inv_step k hist o u o' :
  keys_inv hist o → next_record k u o = Done o' → keys_inv (hist ++ [u]) o'.
Proof.
  intros Hinv Hnext r' ->. unfold next_record in Hnext.
  assert (u ∈ hist ++ [u]) as Hu by (apply elem_of_app; right; apply list_elem_of_here).
  destruct (Py.truthy u) eqn:Htr; simpl in Hnext.
  - split; [by eauto|]. destruct o as [r|]; simpl in Hnext.
    + destruct (merged _ r) as [r1|] eqn:Hm; simplify_eq/=.
      rewrite (merged_lookup _ _ _ "part_2_error" Hm) by done.
      intros (u' & ? & ?)%(proj2 (Hinv r eq_refl)). exists u'.
      split; [apply elem_of_app; by left | done].
    + injection Hnext as <-. intros H. vm_compute in H. by destruct H as [? [=]].
  - split; [|by eauto]. destruct o as [r|]; simplify_eq/=.
    unfold flagged. rewrite !lookup_insert_ne by done.
    intros (u' & ? & ?)%(proj1 (Hinv r eq_refl)). exists u'.
    split; [apply elem_of_app; by left | done].
Qed.

(** The files behind the URLs of an identifier. *)
Lemma elem_of_own_urls w k files u :
  u ∈ own_urls w k (sort_names files) →
  ∃ f, f ∈ files ∧ runs2 f = true ∧ student_of f = k ∧ url_of w f = u.
Proof.
  unfold own_urls, own. intros (f & -> & Hf)%list_elem_of_fmap.
  apply list_elem_of_filter in Hf as [[? ?] Hf].
  rewrite elem_of_sort_names in Hf. exists f. by split_and!.
Qed.

Lemma own_urls_of_elem w k files f :
  f ∈ files → runs2 f = true → student_of f = k →
  url_of w f ∈ own_urls w k (sort_names files).
Proof.
  intros Hf ? ?. unfold own_urls, own. apply list_elem_of_fmap. exists f. split; [done|].
  apply list_elem_of_filter. split; [done|]. by apply elem_of_sort_names.
Qed.

Lemma bearing_own_urls w k files :
  bearing (own_urls w k files)
  = length (filter (λ f, runs2 f = true ∧ student_of f = k ∧ Py.truthy (url_of w f) = true)
              files).
Proof.
  unfold bearing, own_urls, own. induction files as [|f files IH]; [done|].
  rewrite !(filter_cons _ f). destruct (decide (runs2 f = true ∧ student_of f = k)) as [Hk|Hk].
  - rewrite fmap_cons, filter_cons.
    destruct (decide (Py.truthy (url_of w f) = true)) as [Hu|Hu].
    + rewrite decide_True by naive_solver. simpl. by rewrite IH.
    + rewrite decide_False by naive_solver. done.
  - rewrite decide_False by naive_solver. done.
Qed.

Lemma bearing_files2 w k : bearing (own_urls w k (files2 w)) = bearing_files w k.
Proof.
  rewrite bearing_own_urls. unfold files2, sort_names, bearing_files.
  by rewrite merge_sort_Permutation.
Qed.

(** ** The records of the output *)

(** What holds of the record of [k] when the run is over, [hist] being
    the URLs of the Part-2 files of [k]. *)
Lemma final_record w s k r :
  process_files w = Done s →
  Od.get k (records s) = Some r →
  let hist := own_urls w k (files2 w) in
  mismatch_inv hist (Some r) ∧ student_inv k (Some r) ∧ keys_inv hist (Some r)
  ∧ (hist = [] → part1_shaped k r).
Proof.
  intros Hrun Hget hist.
  destruct (process_files_view w) as (s0 & Hs0 & _ & Hfold).
  rewrite Hrun in Hs0. injection Hs0 as <-.
  specialize (Hfold k). fold hist in Hfold. rewrite Hget in Hfold.
  destruct (part1_view w) as (_ & _ & Hshape).
  set (o0 := Od.get k (records (part1 w (State [] [])))) in *.
  assert (mismatch_inv [] o0 ∧ student_inv k o0 ∧ keys_inv [] o0) as H0.
  { split_and!; intros r0 Hr0; pose proof (Hshape k r0 Hr0) as Hsh.
    - by apply (mismatch_inv_part1 k r0).
    - by apply (student_inv_part1 k r0).
    - by apply (keys_inv_part1 k r0). }
  pose proof (fold_next_inv k
    (λ h o, mismatch_inv h o ∧ student_inv k o ∧ keys_inv h o)) as Hind.
  destruct (Hind) with (urls := hist) (hist := @nil (option string)) (o := o0) (o' := Some r)
    as (? & ? & ?); [|done|done|].
  { intros h o u o' (? & ? & ?) Hn.
    split_and!; eauto using mismatch_inv_step, student_inv_step, keys_inv_step. }
  split_and!; [done|done|done|].
  intros Hnil. rewrite Hnil in Hfold. simpl in Hfold. injection Hfold as Ho0.
  by apply Hshape.
Qed.

Lemma final_is_Some w s k :
  process_files w = Done s →
  is_Some (Od.get k (records s)) ↔ has_source w k.
Proof.
  intros Hrun.
  destruct (process_files_view w) as (s0 & Hs0 & _ & Hfold).
  rewrite Hrun in Hs0. injection Hs0 as <-. specialize (Hfold k).
  destruct (part1_view w) as (_ & Hsome & _). specialize (Hsome k).
  set (o0 := Od.get k (records (part1 w (State [] [])))) in *.
  pose proof (fold_next_inv k
    (λ h o, is_Some o ↔ is_Some o0 ∨ ∃ u, u ∈ h ∧ Py.truthy u = true)) as Hind.
  rewrite (Hind) with (urls := own_urls w k (files2 w)) (hist := @nil (option string))
                      (o := o0) (o' := Od.get k (records s)); [| | |done].
  - unfold has_source. rewrite Hsome. simpl. unfold files2. split.
    + intros [?|(u & Hu & Htr)]; [by left|]. right.
      apply elem_of_own_urls in Hu as (f & ? & ? & ? & <-). exists f. by split_and!.
    + intros [?|(f & ? & ? & ? & ?)]; [by left|]. right.
      exists (url_of w f). split; [by apply own_urls_of_elem | done].
  - intros h o u o' Hh Hn. rewrite (next_record_is_Some _ _ _ _ Hn), Hh.
    split.
    + intros [[?|(u' & ? & ?)]|?]; [by left| |].
      * right. exists u'. split; [apply elem_of_app; by left | done].
      * right. exists u. split; [apply elem_of_app; right; apply list_elem_of_here | done].
    + intros [?|(u' & Hu' & ?)]; [by left; left|].
      apply elem_of_app in Hu' as [?|Hu'].
      * left; right. by exists u'.
      * apply list_elem_of_singleton in Hu' as ->. by right.
  - split; [by left | intros [?|(u & Hu & _)]; [done|by apply elem_of_nil in Hu]].
Qed.

Lemma records_of_values k (d : list (string * record)) :
  (∀ k' r, (k', r) ∈ d → r !! "student" = Some (PyStr k')) →
  NoDup (Od.keys d) →
  length (records_of k (Od.values d)) = if decide (k ∈ Od.keys d) then 1 else 0.
Proof.
  unfold records_of, Od.values, Od.keys.
  induction d as [|[k0 r0] d IH]; intros Hst Hnd.
  { rewrite decide_False by apply not_elem_of_nil. done. }
  rewrite !fmap_cons in *. simpl in *.
  apply NoDup_cons in Hnd as [Hk0 Hnd].
  assert (r0 !! "student" = Some (PyStr k0)) as Hr0 by apply Hst, list_elem_of_here.
  rewrite filter_cons, Hr0.
  assert (length (filter (λ r, r !! "student" = Some (PyStr k)) d.*2)
          = if decide (k ∈ d.*1) then 1 else 0) as IH'.
  { apply IH; [|done]. intros. by apply Hst, list_elem_of_further. }
  destruct (decide (k0 = k)) as [->|Hne].
  - rewrite decide_True by done. simpl. rewrite IH'.
    rewrite decide_False by done.
    by rewrite decide_True by apply list_elem_of_here.
  - rewrite decide_False by congruence. rewrite IH'.
    destruct (decide (k ∈ d.*1)) as [Hin|Hin].
    + by rewrite decide_True by by apply list_elem_of_further.
    + rewrite decide_False; [done|]. rewrite not_elem_of_cons. naive_solver.
Qed.

Lemma final_students w s :
  process_files w = Done s →
  NoDup (Od.keys (records s))
  ∧ ∀ k r, (k, r) ∈ records s → r !! "student" = Some (PyStr k).
Proof.
  intros Hrun. destruct (process_files_view w) as (s0 & Hs0 & Hnd & _).
  rewrite Hrun in Hs0. injection Hs0 as <-. split; [done|].
  intros k r Hin. apply OdFacts.elem_of_get in Hin; [|done].
  by apply (final_record w s k r Hrun Hin).
Qed.

(** ** One record per identifier *)

(** C2, as stated, fails: [bob] is the identifier of a Part-2 file that is
    processed, no URL is found in it, and the output has no record for
    [bob]. *)
Lemma no_record_without_url :
  runs2 "bob_link.html" = true
  ∧ student_of "bob_link.html" = "bob"
  ∧ process_files world_without_link
    = Done (State [] ["PART 2 FAIL: Could not extract URL from bob_link.html"])
  ∧ length (records_of "bob" (output (State [] ["PART 2 FAIL: Could not extract URL from bob_link.html"]))) = 0.
Proof. split_and!; by vm_compute. Qed.

(** C2, amended. A run ends, and for every identifier [k] that is the
    prefix of a processed Part-1 file or of a processed Part-2 HTML file in
    which a URL is found, exactly one record of the output has [student]
    equal to [k]; for any other [k] (those whose only files are Part-2
    files without a URL among them) there is none. *)
Theorem one_record_per_source (w : world) :
  (∃ s, process_files w = Done s)
  ∧ ∀ s k, process_files w = Done s →
      (has_source w k → length (records_of k (output s)) = 1)
      ∧ (¬ has_source w k → length (records_of k (output s)) = 0).
Proof.
  split.
  { destruct (process_files_view w) as (s & ? & _). by exists s. }
  intros s k Hrun. destruct (final_students w s Hrun) as [Hnd Hst].
  unfold output. rewrite records_of_values by done.
  rewrite <-(final_is_Some w s k Hrun).
  case_decide as Hin.
  - split; [done|]. intros Hno. destruct Hno.
    apply dec_stable. intros Hn. apply eq_None_not_Some, OdFacts.get_None in Hn. done.
  - split; [|done]. intros Hsome. destruct Hin.
    apply dec_stable. intros Hn. apply OdFacts.get_None in Hn.
    rewrite Hn in Hsome. by destruct Hsome.
Qed.

Lemma one_record_per_source_witness :
  length (records_of "ada"
            (output (State [("ada", record_without_url)]
                       ["MISSING DATA: ada_checklist.csv - No StoryMap URL found."]))) = 1.
Proof.
  apply (proj2 (one_record_per_source world_without_url)
           (State [("ada", record_without_url)]
              ["MISSING DATA: ada_checklist.csv - No StoryMap URL found."]) "ada").
  - by vm_compute.
  - left. exists "ada_checklist.csv". split_and!; [apply list_elem_of_here|done|done].
Defined.

(** ** The mismatch flag *)

(** C1, as stated, fails in both directions. With two Part-2 files for
    one student the flag set by the first stays when the second agrees
    with Part 1: [url_mismatch] is true and the normalized forms are equal.
    With a Part-2 URL that normalizes to nothing both URLs are non-empty,
    their normalized forms differ, and [url_mismatch] is not set. *)
Lemma url_mismatch_not_iff :
  (∃ lg, process_files world_two_links = Done (State [("ada", record_stale)] lg))
  ∧ flag record_stale ∧ ¬ differ_raw record_stale
  ∧ (∃ lg, process_files world_slash = Done (State [("ada", record_slash)] lg))
  ∧ ¬ flag record_slash ∧ differ_raw record_slash.
Proof.
  split_and!.
  - eexists. by vm_compute.
  - by vm_compute.
  - intros (_ & _ & H). by vm_compute in H.
  - eexists. by vm_compute.
  - intros H. by vm_compute in H.
  - split_and!; by vm_compute.
Qed.

(** C1, amended. A run ends, and for every record of the output, with [k]
    its [student]: if the normalized forms of [storymap_url] and
    [storymap_url_2] are both non-empty and differ then [url_mismatch] is
    true; and when at most one Part-2 HTML file with a URL maps to [k],
    [url_mismatch] is true if and only if the two normalized forms are both
    non-empty and differ. *)
Theorem url_mismatch_spec (w : world) :
  (∃ s, process_files w = Done s)
  ∧ ∀ s r, process_files w = Done s → r ∈ output s →
      ∃ k, r !! "student" = Some (PyStr k)
           ∧ (differ r → flag r)
           ∧ (bearing_files w k ≤ 1 → (flag r ↔ differ r)).
Proof.
  split.
  { destruct (process_files_view w) as (s & ? & _). by exists s. }
  intros s r Hrun Hin.
  destruct (final_students w s Hrun) as [Hnd Hst].
  unfold output, Od.values in Hin.
  apply list_elem_of_fmap in Hin as ([k r'] & -> & Hin). simpl.
  exists k. split; [by apply Hst|].
  apply OdFacts.elem_of_get in Hin; [|done].
  destruct (final_record w s k r' Hrun Hin) as (Hm & _).
  destruct (Hm r' eq_refl) as (_ & _ & H2 & _ & H4).
  rewrite bearing_files2 in H4. split; [done|]. intros Hle. split; auto.
Qed.

Lemma url_mismatch_spec_witness :
  ∃ k, record_slash !! "student" = Some (PyStr k)
       ∧ (differ record_slash → flag record_slash)
       ∧ (bearing_files world_slash k ≤ 1 → (flag record_slash ↔ differ record_slash)).
Proof.
  apply (proj2 (url_mismatch_spec world_slash)
           (State [("ada", record_slash)]
              []) record_slash).
  - by vm_compute.
  - apply list_elem_of_here.
Defined.

(** ** The primary URL through Part 2 *)

Lemma clean_if_Done v c : clean_if v = Done c → c = cleaned v.
Proof.
  destruct v as [|[]|u]; simpl; intros; simplify_eq; try done.
  unfold Py.nonempty. case_bool_decide as Hu; simpl; [by rewrite Hu|done].
Qed.

Lemma next_record_url k u r o' :
  next_record k u (Some r) = Done o' →
  ∃ r', o' = Some r'
        ∧ (cleaned (py_get r "storymap_url") ≠ EmptyString →
           r' !! "storymap_url" = r !! "storymap_url")
        ∧ (r' !! "storymap_url" ≠ r !! "storymap_url" →
           cleaned (py_get r "storymap_url") = EmptyString
           ∧ ∃ url_2, u = Some url_2 ∧ r' !! "storymap_url" = Some (PyStr url_2)).
Proof.
  unfold next_record. destruct (Py.truthy u) eqn:Hu; simpl.
  - unfold merged. rewrite get_url_attached.
    destruct (clean_if _) as [c1|] eqn:Hc1; simpl; [|done].
    apply clean_if_Done in Hc1 as ->.
    destruct u as [url_2|]; [simpl in *|done]. rewrite Hu.
    destruct (Py.nonempty (cleaned _)) eqn:Hc; simpl.
    + apply nonempty_true in Hc.
      destruct (_ && _); simpl; intros [= <-]; eexists; (split; [done|]);
        unfold attached; rewrite !lookup_insert_ne by done; done.
    + apply nonempty_false in Hc.
      destruct (Py.nonempty (url_clean url_2)); simpl; intros [= <-];
        eexists; (split; [done|]); unfold attached.
      * rewrite lookup_insert_eq. split; [done|]. intros _. split; [done|]. by exists url_2.
      * rewrite !lookup_insert_ne by done. done.
  - intros [= <-]. eexists. split; [done|].
    unfold flagged. rewrite !lookup_insert_ne by done. done.
Qed.

Lemma part2_step_url w s filename s' k r :
  part2_step w s filename = Done s' →
  Od.get k (records s) = Some r →
  ∃ r', Od.get k (records s') = Some r'
        ∧ (cleaned (py_get r "storymap_url") ≠ EmptyString →
           r' !! "storymap_url" = r !! "storymap_url")
        ∧ (r' !! "storymap_url" ≠ r !! "storymap_url" →
           cleaned (py_get r "storymap_url") = EmptyString
           ∧ runs2 filename = true ∧ student_of filename = k
           ∧ ∃ url_2, url_of w filename = Some url_2
                      ∧ r' !! "storymap_url" = Some (PyStr url_2)).
Proof.
  intros Hstep Hget. destruct (runs2 filename) eqn:Hruns.
  - pose proof (part2_step_view w s filename Hruns) as Hview.
    destruct (next_record _ _ _) as [o|] eqn:Hnext; [|congruence].
    destruct Hview as [lg Hs']. rewrite Hstep in Hs'. injection Hs' as ->. simpl.
    destruct (decide (student_of filename = k)) as [Hk|Hk].
    + rewrite Hk in *. rewrite Hget in Hnext.
      destruct (next_record_url _ _ _ _ Hnext) as (r' & -> & Hkeep & Hchange).
      exists r'. simpl. rewrite OdFacts.get_set_eq. split_and!; [done|done|].
      intros Hne. destruct (Hchange Hne) as (? & ?). done.
    + rewrite get_put_ne by done. exists r. split_and!; [done|done|done].
  - rewrite part2_step_skip in Hstep by done. injection Hstep as <-.
    exists r. split_and!; [done|done|done].
Qed.

Lemma part2_loop_url w files s s' k r :
  part2_loop w files s = Done s' →
  Od.get k (records s) = Some r →
  cleaned (py_get r "storymap_url") ≠ EmptyString →
  ∃ r', Od.get k (records s') = Some r'
        ∧ r' !! "storymap_url" = r !! "storymap_url".
Proof.
  revert s r. induction files as [|f files IH]; intros s r; simpl.
  - intros [= <-] ? _. by exists r.
  - destruct (part2_step w s f) as [s1|] eqn:Hstep; simpl; [|done].
    intros Hloop Hget Hc.
    destruct (part2_step_url _ _ _ _ _ _ Hstep Hget) as (r1 & Hget1 & Hkeep & _).
    specialize (Hkeep Hc).
    destruct (IH s1 r1 Hloop Hget1) as (r' & ? & Hr').
    + unfold py_get in *. by rewrite Hkeep.
    + exists r'. split; [done|]. by rewrite Hr'.
Qed.

(** C3, as stated, fails: Part 1 stores the non-empty URL ["/"], and the
    Part-2 file of the same student replaces it. *)
Lemma part1_url_replaced :
  ∃ r1 s2 r2,
    Od.get "bob" (records (part1 world_slash_part1 (State [] []))) = Some r1
    ∧ r1 !! "storymap_url" = Some (PyStr "/")
    ∧ py_truthy (PyStr "/") = true
    ∧ part2_step world_slash_part1 (part1 world_slash_part1 (State [] [])) "bob_link.html"
      = Done s2
    ∧ Od.get "bob" (records s2) = Some r2
    ∧ r2 !! "storymap_url" = Some (PyStr "https://arcg.is/C").
Proof. do 3 eexists. split_and!; by vm_compute. Qed.

(** C3, amended. A record whose [storymap_url] has a non-empty
    normalized form keeps that field through every iteration of Part 2,
    and so through the whole of Part 2; an iteration replaces the field
    only when its normalized form is empty (the URL is missing, [None],
    empty, or made of whitespace and slashes only), and then by the URL
    of a Part-2 file of that student. *)
Theorem part1_url_kept :
  (∀ w s filename s' k r,
     part2_step w s filename = Done s' →
     Od.get k (records s) = Some r →
     ∃ r', Od.get k (records s') = Some r'
           ∧ (cleaned (py_get r "storymap_url") ≠ EmptyString →
              r' !! "storymap_url" = r !! "storymap_url")
           ∧ (r' !! "storymap_url" ≠ r !! "storymap_url" →
              cleaned (py_get r "storymap_url") = EmptyString
              ∧ runs2 filename = true ∧ student_of filename = k
              ∧ ∃ url_2, url_of w filename = Some url_2
                         ∧ r' !! "storymap_url" = Some (PyStr url_2)))
  ∧ (∀ w s k r,
       process_files w = Done s →
       Od.get k (records (part1 w (State [] []))) = Some r →
       cleaned (py_get r "storymap_url") ≠ EmptyString →
       ∃ r', Od.get k (records s) = Some r'
             ∧ r' !! "storymap_url" = r !! "storymap_url").
Proof.
  split; [apply part2_step_url|].
  intros w s k r Hrun Hget Hc. unfold process_files, part2 in Hrun.
  destruct (dir2 w) as [l|].
  - by eapply part2_loop_url.
  - injection Hrun as <-. by exists r.
Qed.

Lemma part1_url_kept_witness :
  ∃ r', Od.get "ada" [("ada", record_stale)] = Some r'
        ∧ r' !! "storymap_url" = Some (PyStr "https://arcg.is/A").
Proof.
  destruct (proj2 part1_url_kept world_two_links
              (State [("ada", record_stale)]
                 ["URL MISMATCH: ada - Part 1: https://arcg.is/A vs Part 2: https://arcg.is/B"])
              "ada"
              (list_to_map
                 [("student", PyStr "ada"); ("community_district", PyStr "Bronx 1");
                  ("storymap_url", PyStr "https://arcg.is/A");
                  ("needs_review", PyBool false); ("part_1_completed", PyBool true)]))
    as (r' & Hget & Hurl).
  - by vm_compute.
  - by vm_compute.
  - by vm_compute.
  - exists r'. split; [exact Hget|]. rewrite Hurl. by vm_compute.
Defined.

(** ** The keys of a record *)

Lemma dom_part1_record k v : dom (part1_record k v) = part1_keys.
Proof.
  unfold part1_record, part1_keys. simpl. rewrite !dom_insert_L, dom_empty_L.
  set_solver.
Qed.

(** C9. A run ends, and a record of the output whose identifier no
    processed Part-2 file maps to has exactly the five keys Part 1 writes.
    [storymap_url_2], [part_2_completed], [url_mismatch] and [note] are in
    a record only if a Part-2 file of its identifier gave a URL, and
    [part_2_error] only if one gave none. So the presence of a key varies:
    there is a run whose output has a record with [storymap_url_2] and a
    record without it. *)
Theorem optional_keys_presence :
  (∀ w, ∃ s, process_files w = Done s)
  ∧ (∀ w s k r,
       process_files w = Done s →
       Od.get k (records s) = Some r →
       ((∀ f, f ∈ default [] (dir2 w) → runs2 f = true → student_of f ≠ k) →
        dom r = part1_keys)
       ∧ ((is_Some (r !! "storymap_url_2") ∨ is_Some (r !! "part_2_completed")
           ∨ is_Some (r !! "url_mismatch") ∨ is_Some (r !! "note")) →
          ∃ f, f ∈ default [] (dir2 w) ∧ runs2 f = true ∧ student_of f = k
               ∧ Py.truthy (url_of w f) = true)
       ∧ (is_Some (r !! "part_2_error") →
          ∃ f, f ∈ default [] (dir2 w) ∧ runs2 f = true ∧ student_of f = k
               ∧ Py.truthy (url_of w f) = false))
  ∧ (∃ s r1 r2,
       process_files world_mixed = Done s
       ∧ r1 ∈ output s ∧ r2 ∈ output s
       ∧ r1 !! "storymap_url_2" = None
       ∧ r2 !! "storymap_url_2" = Some (PyStr "https://arcg.is/A")).
Proof.
  split_and!.
  - intros w. destruct (process_files_view w) as (s & ? & _). by exists s.
  - intros w s k r Hrun Hget.
    destruct (final_record w s k r Hrun Hget) as (_ & _ & Hkeys & Hpart1).
    destruct (Hkeys r eq_refl) as [K1 K2]. unfold files2 in *. split_and!.
    + intros Hnone.
      destruct Hpart1 as [v ->]; [|apply dom_part1_record].
      destruct (own_urls w k (sort_names (default [] (dir2 w)))) as [|u us] eqn:Hown; [done|].
      assert (u ∈ own_urls w k (sort_names (default [] (dir2 w)))) as Hu
        by (rewrite Hown; apply list_elem_of_here).
      apply elem_of_own_urls in Hu as (f & Hf & Hr & Hk & _).
      by destruct (Hnone f Hf Hr).
    + intros (u & Hu & Htr)%K1.
      apply elem_of_own_urls in Hu as (f & ? & ? & ? & <-). by exists f.
    + intros (u & Hu & Htr)%K2.
      apply elem_of_own_urls in Hu as (f & ? & ? & ? & <-). by exists f.
  - eexists _, _, _. split_and!.
    + by vm_compute.
    + apply list_elem_of_here.
    + apply list_elem_of_further, list_elem_of_here.
    + by vm_compute.
    + by vm_compute.
Qed.

Lemma optional_keys_presence_witness :
  dom record_without_url = part1_keys.
Proof.
  apply (proj1 (proj1 (proj2 optional_keys_presence) world_without_url
                 (State [("ada", record_without_url)]
                    ["MISSING DATA: ada_checklist.csv - No StoryMap URL found."])
                 "ada" record_without_url ltac:(by vm_compute) ltac:(by vm_compute))).
  intros f Hf. by apply elem_of_nil in Hf.
Defined.

(** * The extractor's helpers, in general *)

(** ** Stripping *)

Lemma lstrip_with_idemp p s : Py.lstrip_with p (Py.lstrip_with p s) = Py.lstrip_with p s.
Proof.
  induction s as [|c s IH]; simpl; [done|].
  destruct (p c) eqn:Hc; [done|]. simpl. by rewrite Hc.
Qed.

Lemma rstrip_with_idemp p s : Py.rstrip_with p (Py.rstrip_with p s) = Py.rstrip_with p s.
Proof.
  induction s as [|c s IH]; simpl; [done|].
  destruct (Py.rstrip_with p s) as [|c' t] eqn:Ht.
  - destruct (p c) eqn:Hc; simpl; [done|]. by rewrite Hc.
  - change (Py.rstrip_with p (String c (String c' t)))
      with (match Py.rstrip_with p (String c' t) with
            | EmptyString => if p c then EmptyString else String c EmptyString
            | String a t0 => String c (String a t0)
            end).
    by rewrite IH.
Qed.

(** A string without trailing [p] characters keeps none when leading ones
    are taken off. *)
Lemma rstrip_with_lstrip_with p s :
  Py.rstrip_with p s = s → Py.rstrip_with p (Py.lstrip_with p s) = Py.lstrip_with p s.
Proof.
  induction s as [|c s IH]; [done|].
  cbn [Py.lstrip_with]. destruct (p c) eqn:Hc; [|done].
  cbn [Py.rstrip_with]. rewrite Hc.
  destruct (Py.rstrip_with p s) as [|c' t] eqn:Ht; [discriminate|].
  intros [= Hs]. by apply IH.
Qed.

Lemma strip_idemp s : Py.strip (Py.strip s) = Py.strip s.
Proof.
  unfold Py.strip.
  rewrite (rstrip_with_lstrip_with _ (Py.rstrip_with Py.is_space s))
    by apply rstrip_with_idemp.
  apply lstrip_with_idemp.
Qed.

(** ** The row extractor in general *)

Lemma colon_value_field cell : field_value (colon_value cell).
Proof.
  intros v. unfold colon_value. destruct (Py.contains ":" cell); [|done].
  destruct (Py.split1 ":" cell !! 1) as [part|]; [|done].
  destruct (Py.nonempty (Py.strip part)) eqn:Hne; [|done].
  intros [= <-]. split; [by apply nonempty_true | apply strip_idemp].
Qed.

Lemma scan_cells_field key row_str i cells :
  Forall (λ x, Py.strip x = x) row_str →
  field_value (scan_cells key row_str i cells).
Proof.
  intros Hrow. revert i. induction cells as [|cell rest IH]; intros i; simpl; [done|].
  destruct (Py.contains key (Py.lower cell)); [|apply IH].
  destruct (row_str !! (i + 1)) as [next|] eqn:Hnext; [|apply colon_value_field].
  destruct (Py.nonempty next) eqn:Hne; [|apply colon_value_field].
  intros v [= <-]. split; [by apply nonempty_true|].
  rewrite Forall_forall in Hrow. eapply Hrow, list_elem_of_lookup_2, Hnext.
Qed.

Lemma scan_field_field key row_str cur :
  Forall (λ x, Py.strip x = x) row_str →
  field_value cur → field_value (scan_field key row_str cur).
Proof.
  intros Hrow Hcur. unfold scan_field. destruct (Py.truthy cur); [done|].
  pose proof (scan_cells_field key row_str 0 row_str Hrow) as Hscan.
  by destruct (scan_cells key row_str 0 row_str).
Qed.

Lemma scan_row_field acc row :
  field_value acc.1 → field_value acc.2 →
  field_value (scan_row acc row).1 ∧ field_value (scan_row acc row).2.
Proof.
  intros H1 H2. unfold scan_row. destruct row as [|c row]; [done|].
  assert (Forall (λ x, Py.strip x = x) (Py.strip <$> c :: row)) as Hrow.
  { apply Forall_fmap, Forall_true. intros x. apply strip_idemp. }
  split; by apply scan_field_field.
Qed.

Lemma foldl_scan_row_field rows acc :
  field_value acc.1 → field_value acc.2 →
  field_value (foldl scan_row acc rows).1 ∧ field_value (foldl scan_row acc rows).2.
Proof.
  revert acc. induction rows as [|row rows IH]; intros acc H1 H2; [done|].
  cbn [foldl]. destruct (scan_row_field acc row H1 H2). by apply IH.
Qed.

Lemma extract_from_rows_field rows :
  field_value (extract_from_rows rows).1.1 ∧ field_value (extract_from_rows rows).1.2.
Proof.
  unfold extract_from_rows.
  destruct (foldl_scan_row_field (take 10 rows) (None, None)) as [H1 H2]; [done|done|].
  by destruct (foldl scan_row (None, None) (take 10 rows)) as [cd url].
Qed.

(** X1. Whatever the table, a district or a URL that [extract_from_rows]
    returns is a non-empty string without surrounding whitespace, and the
    issues flag is false exactly when it returns both. *)
Theorem extract_from_rows_values (rows : list (list string)) :
  (∀ v, (extract_from_rows rows).1.1 = Some v → v ≠ EmptyString ∧ Py.strip v = v)
  ∧ (∀ v, (extract_from_rows rows).1.2 = Some v → v ≠ EmptyString ∧ Py.strip v = v)
  ∧ ((extract_from_rows rows).2 = false ↔
     is_Some (extract_from_rows rows).1.1 ∧ is_Some (extract_from_rows rows).1.2).
Proof.
  unfold extract_from_rows.
  destruct (foldl_scan_row_field (take 10 rows) (None, None)) as [H1 H2]; [done|done|].
  destruct (foldl scan_row (None, None) (take 10 rows)) as [cd url]. simpl in *.
  split_and!; [done|done|].
  rewrite orb_false_iff, !negb_false_iff. split.
  - intros [Hcd Hurl]. by destruct cd, url.
  - intros [[v ->] [v' ->]]. destruct (H1 v eq_refl), (H2 v' eq_refl).
    split; by apply nonempty_true.
Qed.

Lemma extract_from_rows_values_witness :
  "Bronx 4" ≠ EmptyString ∧ Py.strip "Bronx 4" = "Bronx 4".
Proof.
  apply (proj1 (extract_from_rows_values
                  [["Community District"; "  Bronx 4 "]; ["StoryMap URL"; "https://arcg.is/1"]])).
  reflexivity.
Defined.

Lemma foldl_scan_row_keeps rows acc :
  (Py.truthy acc.1 = true → (foldl scan_row acc rows).1 = acc.1)
  ∧ (Py.truthy acc.2 = true → (foldl scan_row acc rows).2 = acc.2).
Proof.
  revert acc. induction rows as [|row rows IH]; intros acc; [done|].
  cbn [foldl]. destruct (IH (scan_row acc row)) as [IH1 IH2].
  unfold scan_row, scan_field in *. destruct row as [|c row]; [done|]. simpl in *.
  split; intros Ht; rewrite Ht in *; auto.
Qed.

(** X2. [extract_from_rows] reads the first ten rows only, and within
    them the first row that gives a value decides: a value found in a table
    is still the result when rows are added below it. *)
Theorem extract_from_rows_window (rows more : list (list string)) :
  (10 ≤ length rows → extract_from_rows (rows ++ more) = extract_from_rows rows)
  ∧ (∀ v, (extract_from_rows rows).1.1 = Some v →
          (extract_from_rows (rows ++ more)).1.1 = Some v)
  ∧ (∀ v, (extract_from_rows rows).1.2 = Some v →
          (extract_from_rows (rows ++ more)).1.2 = Some v).
Proof.
  split.
  { intros Hlen. unfold extract_from_rows. by rewrite take_app_le by lia. }
  pose proof (extract_from_rows_field rows) as (Hcd & Hurl).
  unfold extract_from_rows in *.
  rewrite take_app, foldl_app.
  destruct (foldl scan_row (None, None) (take 10 rows)) as [cd url]. simpl in *.
  destruct (foldl_scan_row_keeps (take (10 - length rows) more) (cd, url)) as [K1 K2].
  destruct (foldl scan_row (cd, url) (take (10 - length rows) more)) as [cd' url'].
  simpl in *. split; intros v ->.
  - apply K1, nonempty_true, (Hcd v eq_refl).
  - apply K2, nonempty_true, (Hurl v eq_refl).
Qed.

Lemma extract_from_rows_window_witness :
  (extract_from_rows ([["Community District"; "Bronx 4"]]
                      ++ [["Community District"; "Queens 7"]])).1.1 = Some "Bronx 4".
Proof.
  apply (proj1 (proj2 (extract_from_rows_window [["Community District"; "Bronx 4"]]
                         [["Community District"; "Queens 7"]]))).
  reflexivity.
Defined.

Lemma scan_cells_no_key key row_str i cells :
  Forall (λ cell, Py.contains key (Py.lower cell) = false) cells →
  scan_cells key row_str i cells = None.
Proof.
  intros H. revert i. induction H as [|cell rest Hcell _ IH]; intros i; simpl; [done|].
  by rewrite Hcell.
Qed.

Lemma foldl_scan_row_no_key rows acc :
  (Forall (Forall (λ cell, Py.contains "community district" (Py.lower (Py.strip cell)) = false)) rows →
   acc.1 = None → (foldl scan_row acc rows).1 = None)
  ∧ (Forall (Forall (λ cell, Py.contains "storymap url" (Py.lower (Py.strip cell)) = false)) rows →
     acc.2 = None → (foldl scan_row acc rows).2 = None).
Proof.
  revert acc. induction rows as [|row rows IH]; intros acc; [done|].
  cbn [foldl]. destruct (IH (scan_row acc row)) as [IH1 IH2].
  split; intros [Hrow Hrows]%Forall_cons Hacc.
  - apply IH1; [done|]. unfold scan_row. destruct row as [|c row]; [done|].
    cbn [fst]. unfold scan_field. rewrite Hacc. cbn [Py.truthy].
    rewrite scan_cells_no_key; [done|]. by apply Forall_fmap.
  - apply IH2; [done|]. unfold scan_row. destruct row as [|c row]; [done|].
    cbn [snd]. unfold scan_field. rewrite Hacc. cbn [Py.truthy].
    rewrite scan_cells_no_key; [done|]. by apply Forall_fmap.
Qed.

(** X3. A field is found only through its key: when no cell of the first
    ten rows, stripped and lowercased, contains [community district], no
    district is returned, and likewise for [storymap url] and the URL. *)
Theorem extract_from_rows_needs_key (rows : list (list string)) :
  (Forall (Forall (λ cell,
       Py.contains "community district" (Py.lower (Py.strip cell)) = false))
     (take 10 rows) →
   (extract_from_rows rows).1.1 = None)
  ∧ (Forall (Forall (λ cell,
         Py.contains "storymap url" (Py.lower (Py.strip cell)) = false))
       (take 10 rows) →
     (extract_from_rows rows).1.2 = None).
Proof.
  unfold extract_from_rows.
  destruct (foldl_scan_row_no_key (take 10 rows) (None, None)) as [H1 H2].
  destruct (foldl scan_row (None, None) (take 10 rows)) as [cd url]. simpl in *.
  split; intros H; auto.
Qed.

Lemma extract_from_rows_needs_key_witness :
  (extract_from_rows [["District"; "Bronx 4"]; ["StoryMap URL"; "https://arcg.is/1"]]).1.1
  = None.
Proof.
  apply (proj1 (extract_from_rows_needs_key
                  [["District"; "Bronx 4"]; ["StoryMap URL"; "https://arcg.is/1"]])).
  repeat constructor.
Defined.

(** ** The student identifier *)

Lemma contains_before_first sep s :
  Py.contains (String sep EmptyString) (Py.before_first sep s) = false.
Proof.
  induction s as [|c s IH]; simpl; [done|].
  case_bool_decide as Hc; simpl; [done|].
  rewrite IH, orb_false_r. destruct (ascii_dec sep c); [by subst|done].
Qed.

Lemma append_cons c s t : String c s +:+ t = String c (s +:+ t).
Proof. reflexivity. Qed.

Lemma before_first_app sep k rest :
  Py.contains (String sep EmptyString) k = false →
  Py.before_first sep (k +:+ String sep rest) = k.
Proof.
  induction k as [|c k IH].
  - intros _. change (EmptyString +:+ String sep rest) with (String sep rest).
    simpl. by rewrite bool_decide_true.
  - rewrite append_cons. simpl. destruct (ascii_dec sep c) as [->|Hne]; simpl.
    + by destruct k.
    + intros Hk. rewrite bool_decide_false by done. by rewrite IH.
Qed.

Lemma before_first_split sep s :
  s = Py.before_first sep s
  ∨ ∃ rest, s = Py.before_first sep s +:+ String sep rest.
Proof.
  induction s as [|c s IH]; simpl; [by left|].
  case_bool_decide as Hc.
  - right. exists s. by subst.
  - destruct IH as [IH|[rest IH]].
    + left. by rewrite <-IH.
    + right. exists rest. by rewrite append_cons, <-IH.
Qed.

(** X4. The identifier of a file is the part of its name before the
    first underscore: it has no underscore, the name is the identifier
    alone or the identifier, an underscore and a rest, and every name made
    of an underscore-free [k], an underscore and any rest has identifier
    [k] (so all such files are merged into the one record of [k]). *)
Theorem student_name_prefix :
  (∀ filename, Py.contains "_" (Py.before_first "_" filename) = false)
  ∧ (∀ filename,
       filename = Py.before_first "_" filename
       ∨ ∃ rest, filename = Py.before_first "_" filename +:+ "_" +:+ rest)
  ∧ (∀ k rest,
       Py.contains "_" k = false → Py.before_first "_" (k +:+ "_" +:+ rest) = k).
Proof.
  split_and!.
  - intros filename. apply contains_before_first.
  - intros filename. apply before_first_split.
  - intros k rest Hk. by apply before_first_app.
Qed.

Lemma student_name_prefix_witness :
  Py.before_first "_" ("Ada Lovelace" +:+ "_" +:+ "1234_checklist.csv") = "Ada Lovelace".
Proof. apply (proj2 (proj2 student_name_prefix)). reflexivity. Defined.

(** ** URL normalization *)

Lemma lower_char_idemp c : Py.lower_char (Py.lower_char c) = Py.lower_char c.
Proof. by destruct c as [[] [] [] [] [] [] [] []]. Qed.

Lemma is_space_lower_char c : Py.is_space (Py.lower_char c) = Py.is_space c.
Proof. by destruct c as [[] [] [] [] [] [] [] []]. Qed.

Lemma is_slash_lower_char c :
  bool_decide (Py.lower_char c = "/"%char) = bool_decide (c = "/"%char).
Proof. by destruct c as [[] [] [] [] [] [] [] []]. Qed.

Lemma lower_idemp s : Py.lower (Py.lower s) = Py.lower s.
Proof. induction s as [|c s IH]; simpl; [done|]. by rewrite lower_char_idemp, IH. Qed.

Lemma lower_lstrip_with p s :
  (∀ c, p (Py.lower_char c) = p c) →
  Py.lower (Py.lstrip_with p s) = Py.lstrip_with p (Py.lower s).
Proof.
  intros Hp. induction s as [|c s IH]; simpl; [done|].
  rewrite Hp. by destruct (p c).
Qed.

Lemma lower_rstrip_with p s :
  (∀ c, p (Py.lower_char c) = p c) →
  Py.lower (Py.rstrip_with p s) = Py.rstrip_with p (Py.lower s).
Proof.
  intros Hp. induction s as [|c s IH]; simpl; [done|].
  rewrite <-IH, Hp. destruct (Py.rstrip_with p s); simpl; [by destruct (p c)|done].
Qed.

Lemma url_clean_lower u : url_clean (Py.lower u) = url_clean u.
Proof.
  unfold url_clean, Py.strip, Py.rstrip_slash.
  rewrite <-(lower_rstrip_with _ u) by apply is_space_lower_char.
  rewrite <-lower_lstrip_with by apply is_space_lower_char.
  rewrite <-lower_rstrip_with by apply is_slash_lower_char.
  apply lower_idemp.
Qed.

Lemma rstrip_with_snoc_keep p s c :
  p c = false →
  Py.rstrip_with p (s +:+ String c EmptyString) = s +:+ String c EmptyString.
Proof.
  intros Hc. induction s as [|a s IH]; [by simpl; rewrite Hc|].
  rewrite append_cons. cbn [Py.rstrip_with]. rewrite IH. by destruct s.
Qed.

Lemma rstrip_with_snoc_drop p s c :
  p c = true →
  Py.rstrip_with p (s +:+ String c EmptyString) = Py.rstrip_with p s.
Proof.
  intros Hc. induction s as [|a s IH]; [by simpl; rewrite Hc|].
  rewrite append_cons. cbn [Py.rstrip_with]. by rewrite IH.
Qed.

Lemma lstrip_with_snoc_keep p s c :
  p c = false →
  Py.lstrip_with p (s +:+ String c EmptyString)
  = Py.lstrip_with p s +:+ String c EmptyString.
Proof.
  intros Hc. induction s as [|a s IH]; [by simpl; rewrite Hc|].
  rewrite append_cons. cbn [Py.lstrip_with]. by destruct (p a).
Qed.

Lemma url_clean_slash u :
  Py.rstrip_with Py.is_space u = u → url_clean (u +:+ "/") = url_clean u.
Proof.
  intros Hu. unfold url_clean, Py.strip, Py.rstrip_slash.
  rewrite rstrip_with_snoc_keep, lstrip_with_snoc_keep by done.
  rewrite rstrip_with_snoc_drop by done. by rewrite Hu.
Qed.

(** X5. The comparison of the two URLs ignores case and one trailing
    slash: URLs with the same lowercase form have the same normalized form,
    and a URL without trailing whitespace has the normalized form of itself
    followed by a slash. *)
Theorem url_clean_insensitive :
  (∀ u1 u2, Py.lower u1 = Py.lower u2 → url_clean u1 = url_clean u2)
  ∧ (∀ u, Py.rstrip_with Py.is_space u = u → url_clean (u +:+ "/") = url_clean u).
Proof.
  split.
  - intros u1 u2 H. by rewrite <-(url_clean_lower u1), H, url_clean_lower.
  - apply url_clean_slash.
Qed.

Lemma url_clean_insensitive_witness :
  url_clean "HTTPS://ArcG.is/15KnDO0" = url_clean "https://arcg.is/15kndo0"
  ∧ url_clean ("https://arcg.is/15KnDO0" +:+ "/") = url_clean "https://arcg.is/15KnDO0".
Proof.
  split.
  - apply (proj1 url_clean_insensitive). reflexivity.
  - apply (proj2 url_clean_insensitive). reflexivity.
Defined.

(** * The patterns of the URL extractor *)

(** ** What the patterns capture *)

Lemma match_here_star p r gs g s :
  Re.match_here (Re.Star p :: r) gs g s
  = match s with
    | String x s' =>
        if p x then
          match Re.match_here (Re.Star p :: r) gs g s' with
          | Some res => Some res
          | None => Re.match_here r gs g s
          end
        else Re.match_here r gs g s
    | EmptyString => Re.match_here r gs g s
    end.
Proof. by destruct s. Qed.

Lemma match_here_plus p r gs g s :
  Re.match_here (Re.Plus p :: r) gs g s
  = match s with
    | String x s' => if p x then Re.match_here (Re.Star p :: r) gs g s' else None
    | EmptyString => None
    end.
Proof. by destruct s. Qed.

(** A greedy repetition takes a run of characters of its class and hands
    the rest to what follows. *)
Lemma match_here_star_inv p r gs g s res :
  Re.match_here (Re.Star p :: r) gs g s = Some res →
  ∃ x s1, s = x +:+ s1 ∧ all_chars p x = true ∧ Re.match_here r gs g s1 = Some res.
Proof.
  induction s as [|c s IH]; rewrite match_here_star.
  - intros H. by exists EmptyString, EmptyString.
  - destruct (p c) eqn:Hc; [|intros H; by exists EmptyString, (String c s)].
    destruct (Re.match_here (Re.Star p :: r) gs g s) as [res'|] eqn:Hs.
    + intros [= <-]. destruct (IH eq_refl) as (x & s1 & -> & Hx & Hr).
      exists (String c x), s1. split_and!; [done| |done]. simpl. by rewrite Hc.
    + intros H. by exists EmptyString, (String c s).
Qed.

Lemma match_here_plus_inv p r gs g s res :
  Re.match_here (Re.Plus p :: r) gs g s = Some res →
  ∃ c x s1, s = String c (x +:+ s1) ∧ p c = true ∧ all_chars p x = true
            ∧ Re.match_here r gs g s1 = Some res.
Proof.
  rewrite match_here_plus. destruct s as [|c s]; [done|].
  destruct (p c) eqn:Hc; [|done].
  intros (x & s1 & -> & Hx & Hr)%match_here_star_inv. by exists c, x, s1.
Qed.

(** Items outside the group pass the captured text on. *)
Lemma match_here_plain_item i r gs g s res :
  plain i →
  Re.match_here (i :: r) gs g s = Some res →
  ∃ s', Re.match_here r gs g s' = Some res.
Proof.
  destruct i as [c|p|p|p| |]; intros Hi; try done.
  - destruct s as [|x s]; simpl; [done|]. destruct (Re.same_nocase c x); [eauto|done].
  - destruct s as [|x s]; simpl; [done|]. destruct (p x); [eauto|done].
  - intros (x & s1 & _ & _ & ?)%match_here_star_inv. eauto.
  - intros (c & x & s1 & _ & _ & _ & ?)%match_here_plus_inv. eauto.
Qed.

Lemma match_here_plain_prefix l r gs g s res :
  Forall plain l →
  Re.match_here (l ++ r) gs g s = Some res →
  ∃ s', Re.match_here r gs g s' = Some res.
Proof.
  intros Hl. revert s. induction Hl as [|i l Hi _ IH]; intros s; simpl; [eauto|].
  intros (s' & Hs')%match_here_plain_item; [|done]. eauto.
Qed.

Lemma match_here_plain_result l gs g s res :
  Forall plain l → Re.match_here l gs g s = Some res → res = g.
Proof.
  intros Hl. revert s. induction Hl as [|i l Hi _ IH]; intros s.
  - by intros [= <-].
  - intros (s' & Hs')%match_here_plain_item; [|done]. eauto.
Qed.

Lemma prefix_of_length_app x s1 :
  Re.prefix_of_length (String.length (x +:+ s1) - String.length s1) (x +:+ s1) = x.
Proof.
  induction x as [|c x IH]; simpl.
  - rewrite Nat.sub_diag. by destruct s1.
  - assert (String.length s1 ≤ String.length (x +:+ s1)) as Hle.
    { clear. induction x; simpl; [done|]. change (String.append x s1) with (x +:+ s1). lia. }
    change (String.append x s1) with (x +:+ s1).
    rewrite Nat.sub_succ_l by done. simpl. by rewrite IH.
Qed.

(** The group of a pattern that has one group, a [+] on a class, between
    items outside it: what a match captures is not empty and is made of
    characters of that class. *)
Lemma match_here_group l1 p l2 gs g s res :
  Forall plain l1 → Forall plain l2 →
  Re.match_here (l1 ++ Re.GroupOpen :: Re.Plus p :: Re.GroupClose :: l2) gs g s = Some res →
  res ≠ EmptyString ∧ all_chars p res = true.
Proof.
  intros H1 H2 (s0 & Hs0)%match_here_plain_prefix; [|done].
  cbn [Re.match_here] in Hs0. fold Re.match_here in Hs0.
  change (Re.match_here (Re.Plus p :: Re.GroupClose :: l2) s0 g s0 = Some res) in Hs0.
  apply match_here_plus_inv in Hs0 as (c & x & s1 & Hs & Hc & Hx & Hclose).
  change (Re.match_here l2 s0
            (Re.prefix_of_length (String.length s0 - String.length s1) s0) s1
          = Some res) in Hclose.
  apply match_here_plain_result in Hclose; [|done].
  rewrite Hs in Hclose.
  change (String c (x +:+ s1)) with (String c x +:+ s1) in Hclose.
  rewrite prefix_of_length_app in Hclose. subst res.
  split; [done|]. simpl. by rewrite Hc.
Qed.

Lemma search_group l1 p l2 s res :
  Forall plain l1 → Forall plain l2 →
  Re.search (l1 ++ Re.GroupOpen :: Re.Plus p :: Re.GroupClose :: l2) s = Some res →
  res ≠ EmptyString ∧ all_chars p res = true.
Proof.
  intros H1 H2. induction s as [|c s IH]; cbn [Re.search].
  - destruct (Re.match_here _ _ _ _) as [res'|] eqn:Hm; [|done].
    intros [= <-]. eapply match_here_group; [exact H1 | exact H2 | exact Hm].
  - destruct (Re.match_here _ _ _ (String c s)) as [res'|] eqn:Hm; [|exact IH].
    intros [= <-]. eapply match_here_group; [exact H1 | exact H2 | exact Hm].
Qed.

Lemma anchor_re_shape :
  anchor_re
  = anchor_head ++ Re.GroupOpen :: Re.Plus (λ c, negb (Re.is_quote c))
                :: Re.GroupClose :: [Re.Cls Re.is_quote].
Proof. reflexivity. Qed.

Lemma meta_re_shape :
  meta_re
  = meta_head ++ Re.GroupOpen
              :: Re.Plus (λ c, negb (Re.is_quote c || bool_decide (c = ";"%char)))
              :: Re.GroupClose :: [].
Proof. reflexivity. Qed.

Lemma anchor_head_plain : Forall plain anchor_head.
Proof. unfold anchor_head, Re.lits. simpl. repeat constructor. Qed.

Lemma meta_head_plain : Forall plain meta_head.
Proof. unfold meta_head, Re.lits. simpl. repeat constructor. Qed.

Lemma all_chars_impl (p q : ascii → bool) s :
  (∀ c, p c = true → q c = true) → all_chars p s = true → all_chars q s = true.
Proof.
  intros Hpq. induction s as [|c s IH]; simpl; [done|].
  rewrite !andb_true_iff. intros [? ?]. auto.
Qed.

(** X13. A URL that [extract_url_from_html] returns is never empty and
    holds neither a double nor a single quote; it comes from a file that
    could be read, and nothing is logged. So the test [if not url_2] of
    Part 2 fails for no URL that was found. *)
Theorem extract_url_from_html_found (filepath : string) (file : read_result)
    (u : string) (lines : list string) :
  extract_url_from_html filepath file = (Some u, lines) →
  u ≠ EmptyString
  ∧ all_chars (λ c, negb (Re.is_quote c)) u = true
  ∧ Py.truthy (Some u) = true
  ∧ lines = []
  ∧ ∃ content, file = ReadOk content.
Proof.
  unfold extract_url_from_html. destruct file as [content|exc]; [|done].
  intros H.
  assert (u ≠ EmptyString ∧ all_chars (λ c, negb (Re.is_quote c)) u = true
          ∧ lines = []) as (Hu & Hq & ->).
  { destruct (Re.search anchor_re content) as [u1|] eqn:Ha.
    - injection H as -> <-. rewrite anchor_re_shape in Ha.
      apply search_group in Ha as [? ?];
        [done|apply anchor_head_plain|by repeat constructor].
    - destruct (Re.search meta_re content) as [u2|] eqn:Hm; [|done].
      injection H as -> <-. rewrite meta_re_shape in Hm.
      apply search_group in Hm as [? Hall]; [|apply meta_head_plain|constructor].
      split_and!; [done| |done].
      eapply all_chars_impl; [|exact Hall].
      intros c. simpl. rewrite !negb_true_iff, orb_false_iff. by intros [? _]. }
  split_and!; [done|done| |done|by exists content].
  simpl. by apply nonempty_true.
Qed.

Lemma extract_url_from_html_found_witness :
  "https://arcg.is/XYZ789" ≠ EmptyString
  ∧ all_chars (λ c, negb (Re.is_quote c)) "https://arcg.is/XYZ789" = true
  ∧ Py.truthy (Some "https://arcg.is/XYZ789") = true
  ∧ @nil string = []
  ∧ ∃ content, ReadOk example_meta = ReadOk content.
Proof.
  apply (extract_url_from_html_found "p" (ReadOk example_meta)). reflexivity.
Defined.

(** * The two parts of the extraction *)

(** ** Part 1: when a record needs review *)

Lemma extract_from_rows_issues rows :
  (extract_from_rows rows).2
  = negb (Py.truthy (extract_from_rows rows).1.1)
    || negb (Py.truthy (extract_from_rows rows).1.2).
Proof.
  unfold extract_from_rows. by destruct (foldl scan_row _ _) as [cd url].
Qed.

(** X6. The record of a Part-1 file has [needs_review = false] exactly
    when the file was read as CSV, passed the strict check and gave both
    fields; whenever pandas had to be used the record needs review, even
    when the data was recovered. A record that needs no review has logged
    nothing, and one that needs review has logged at least one line. *)
Theorem part1_needs_review (w : world) (filename : string) :
  let v := final_check filename (read_part1 w filename) in
  (needs_review v = false ↔
     ∃ rows, read_csv w filename = CsvRows rows
             ∧ strict_check rows = Done true
             ∧ (extract_from_rows rows).2 = false)
  ∧ (needs_review v = false →
     Py.truthy (community_district v) = true ∧ Py.truthy (storymap_url v) = true)
  ∧ (logged v = [] ↔ needs_review v = false).
Proof.
  unfold read_part1, pandas_fallback.
  destruct (read_csv w filename) as [rows|e_csv] eqn:Hcsv.
  - destruct (strict_check rows) as [strict_ok|e] eqn:Hstrict.
    + pose proof (extract_from_rows_issues rows) as Hissues.
      destruct (extract_from_rows rows) as [[cd url] issues] eqn:He. simpl in *.
      destruct strict_ok, (Py.truthy cd), (Py.truthy url); simpl in *; subst issues;
        (split_and!;
         [split;
          [intros Hnr; try discriminate Hnr; exists rows; by rewrite He
          |intros (rows0 & Hr & Hs & Hi); simplify_eq; rewrite ?He in Hi; simpl in Hi;
           first [done | congruence]]
         |by intros
         |split; by intros]).
    + destruct (read_pandas w filename) as [prows|e_pd];
        [destruct (extract_from_rows prows) as [[cd url] issues]|]; simpl;
        (split_and!;
         [split; [by intros | intros (rows0 & Hr & Hs & Hi); simplify_eq; congruence]
         |by intros
         |split; [by intros | by intros]]).
  - destruct (read_pandas w filename) as [prows|e_pd];
      [destruct (extract_from_rows prows) as [[cd url] issues]|]; simpl;
      (split_and!;
       [split; [by intros | by intros (rows0 & Hr & _)]
       |by intros
       |split; [by intros | by intros]]).
Qed.

Lemma part1_needs_review_witness :
  Py.truthy (community_district
               (final_check "ada_checklist.csv"
                  (read_part1 world_two_links "ada_checklist.csv"))) = true
  ∧ Py.truthy (storymap_url
                 (final_check "ada_checklist.csv"
                    (read_part1 world_two_links "ada_checklist.csv"))) = true.
Proof.
  apply (proj1 (proj2 (part1_needs_review world_two_links "ada_checklist.csv"))).
  reflexivity.
Defined.

(** ** Part 1: several files of one student *)

Lemma foldl_part1_step_last w k files s :
  Od.get k (records (foldl (part1_step w) s files))
  = match last (filter (λ f, runs1 f = true ∧ student_of f = k) files) with
    | Some f => Some (part1_record_of w f)
    | None => Od.get k (records s)
    end.
Proof.
  revert s. induction files as [|f files IH]; intros s; [done|].
  cbn [foldl]. rewrite IH, part1_step_get, filter_cons.
  case_decide as Hf; [|done].
  rewrite last_cons. by destruct (last _).
Qed.

(** X7. When several Part-1 files map to one student, the record after
    Part 1 is the one of the last of them in sorted order: each file
    overwrites the record of the one before. A student without a processed
    Part-1 file has no record then. *)
Theorem part1_last_file_wins (w : world) (k : string) :
  Od.get k (records (part1 w (State [] [])))
  = part1_record_of w
      <$> last (filter (λ f, runs1 f = true ∧ student_of f = k) (files1 w)).
Proof.
  unfold part1, files1. destruct (dir1 w) as [files|]; simpl.
  - rewrite foldl_part1_step_last. by destruct (last _).
  - done.
Qed.

(** ** Part 2: what it leaves alone *)

Lemma part1_fields_kept_trans r1 r2 r3 :
  part1_fields_kept r1 r2 → part1_fields_kept r2 r3 → part1_fields_kept r1 r3.
Proof.
  unfold part1_fields_kept. intros (-> & -> & -> & -> & ?) (-> & -> & -> & -> & ?).
  split_and!; auto.
Qed.

Lemma next_record_kept k u r o' :
  next_record k u (Some r) = Done o' →
  ∃ r', o' = Some r' ∧ part1_fields_kept r r'.
Proof.
  unfold next_record. destruct (negb (Py.truthy u)); simpl.
  - intros [= <-]. eexists. split; [done|].
    unfold part1_fields_kept, flagged.
    rewrite !lookup_insert_ne by done. split_and!; try done.
    intros _. by rewrite lookup_insert_eq.
  - destruct (merged _ r) as [r'|] eqn:Hm; simpl; [|done].
    intros [= <-]. exists r'. split; [done|]. unfold part1_fields_kept.
    rewrite !(merged_lookup _ _ _ _ Hm) by done. by split_and!.
Qed.

Lemma part2_step_kept w s filename s' k r :
  part2_step w s filename = Done s' →
  Od.get k (records s) = Some r →
  ∃ r', Od.get k (records s') = Some r' ∧ part1_fields_kept r r'.
Proof.
  intros Hstep Hget. destruct (runs2 filename) eqn:Hruns.
  - pose proof (part2_step_view w s filename Hruns) as Hview.
    destruct (next_record _ _ _) as [o|] eqn:Hnext; [|congruence].
    destruct Hview as [lg Hs']. rewrite Hstep in Hs'. injection Hs' as ->. simpl.
    destruct (decide (student_of filename = k)) as [Hk|Hk].
    + rewrite Hk in *. rewrite Hget in Hnext.
      destruct (next_record_kept _ _ _ _ Hnext) as (r' & -> & Hkept).
      exists r'. simpl. by rewrite OdFacts.get_set_eq.
    + rewrite get_put_ne by done. exists r. split; [done|]. by unfold part1_fields_kept.
  - rewrite part2_step_skip in Hstep by done. injection Hstep as <-.
    exists r. split; [done|]. by unfold part1_fields_kept.
Qed.

Lemma part2_loop_kept w files s s' k r :
  part2_loop w files s = Done s' →
  Od.get k (records s) = Some r →
  ∃ r', Od.get k (records s') = Some r' ∧ part1_fields_kept r r'.
Proof.
  revert s r. induction files as [|f files IH]; intros s r; simpl.
  - intros [= <-] ?. exists r. split; [done|]. by unfold part1_fields_kept.
  - destruct (part2_step w s f) as [s1|] eqn:Hstep; simpl; [|done].
    intros Hloop Hget.
    destruct (part2_step_kept _ _ _ _ _ _ Hstep Hget) as (r1 & Hget1 & Hk1).
    destruct (IH s1 r1 Hloop Hget1) as (r' & ? & Hk').
    exists r'. split; [done|]. by eapply part1_fields_kept_trans.
Qed.

Lemma process_files_kept w s k r :
  process_files w = Done s →
  Od.get k (records (part1 w (State [] []))) = Some r →
  ∃ r', Od.get k (records s) = Some r' ∧ part1_fields_kept r r'.
Proof.
  intros Hrun Hget. unfold process_files, part2 in Hrun.
  destruct (dir2 w) as [l|].
  - by eapply part2_loop_kept.
  - injection Hrun as <-. exists r. split; [done|]. by unfold part1_fields_kept.
Qed.

(** X8. Part 2 never removes a record and never rewrites what Part 1
    found: through every iteration, and so in the output, the record of a
    student keeps its [student], [community_district], [part_1_completed]
    and [note] entries, and a [needs_review] that is true stays true. *)
Theorem part2_keeps_part1_fields :
  (∀ w s filename s' k r,
     part2_step w s filename = Done s' →
     Od.get k (records s) = Some r →
     ∃ r', Od.get k (records s') = Some r' ∧ part1_fields_kept r r')
  ∧ (∀ w s k r,
       process_files w = Done s →
       Od.get k (records (part1 w (State [] []))) = Some r →
       ∃ r', Od.get k (records s) = Some r' ∧ part1_fields_kept r r').
Proof.
  split; [apply part2_step_kept | apply process_files_kept].
Qed.

Lemma part2_keeps_part1_fields_witness :
  ∃ r', Od.get "ada" [("ada", record_stale)] = Some r'
        ∧ part1_fields_kept
            (list_to_map
               [("student", PyStr "ada"); ("community_district", PyStr "Bronx 1");
                ("storymap_url", PyStr "https://arcg.is/A");
                ("needs_review", PyBool false); ("part_1_completed", PyBool true)])
            r'.
Proof.
  apply (proj2 part2_keeps_part1_fields world_two_links
           (State [("ada", record_stale)]
              ["URL MISMATCH: ada - Part 1: https://arcg.is/A vs Part 2: https://arcg.is/B"])
           "ada").
  - reflexivity.
  - reflexivity.
Defined.

(** ** Part 2: equal URLs *)

(** X9. When the Part-2 URL of a student has the normalized form of the
    Part-1 URL, the merge only attaches it: [storymap_url_2] and
    [part_2_completed] are set, [storymap_url] is kept, [url_mismatch] is
    not set and nothing is logged. *)
Theorem part2_merge_same_url (k url_2 u1 : string) (s : state) (r : record) :
  Od.get k (records s) = Some r →
  r !! "storymap_url" = Some (PyStr u1) →
  Py.nonempty url_2 = true →
  url_clean u1 = url_clean url_2 →
  part2_merge k url_2 s
  = Done (State (Od.set k (<["part_2_completed" := PyBool true]>
                             (<["storymap_url_2" := PyStr url_2]> r)) (records s))
            (log s)).
Proof.
  intros Hget Hu1 Hne Heq. unfold part2_merge. rewrite Hget.
  assert (py_get (<["part_2_completed" := PyBool true]>
                    (<["storymap_url_2" := PyStr url_2]> r)) "storymap_url"
          = PyStr u1) as ->.
  { unfold py_get. by rewrite !lookup_insert_ne, Hu1 by done. }
  simpl. rewrite Hne.
  assert ((if Py.nonempty u1 then url_clean u1 else EmptyString) = url_clean url_2) as ->.
  { rewrite <-Heq. unfold Py.nonempty. case_bool_decide as Hu; simpl; [by subst|done]. }
  rewrite bool_decide_true by done.
  by destruct (Py.nonempty (url_clean url_2)).
Qed.

Lemma part2_merge_same_url_witness :
  part2_merge "ada" "HTTPS://arcg.is/1/"
    (State [("ada", {["storymap_url" := PyStr "https://arcg.is/1"]})] [])
  = Done (State [("ada", <["part_2_completed" := PyBool true]>
                           (<["storymap_url_2" := PyStr "HTTPS://arcg.is/1/"]>
                              {["storymap_url" := PyStr "https://arcg.is/1"]}))] []).
Proof.
  apply (part2_merge_same_url "ada" "HTTPS://arcg.is/1/" "https://arcg.is/1"
           (State [("ada", {["storymap_url" := PyStr "https://arcg.is/1"]})] [])
           {["storymap_url" := PyStr "https://arcg.is/1"]}); reflexivity.
Defined.

(** ** The log of Part 2 *)

Lemma part2_merge_log k url_2 s s' :
  part2_merge k url_2 s = Done s' → ∃ l, log s' = log s ++ l.
Proof.
  unfold part2_merge. destruct (Od.get k (records s)) as [r|]; simpl.
  - destruct (clean_if _) as [u1|]; simpl; [|done].
    destruct (negb _ && _); [|destruct (_ && _ && _)]; intros [= <-]; simpl;
      first [by eexists | by exists []; rewrite app_nil_r].
  - intros [= <-]. simpl. by eexists.
Qed.

Lemma part2_step_log w s filename s' :
  part2_step w s filename = Done s' →
  ∃ l, log s' = log s ++ l
       ∧ (runs2 filename = true → Py.truthy (url_of w filename) = false →
          part2_fail_line filename ∈ l)
       ∧ (∀ exc, runs2 filename = true → read_html w filename = ReadError exc →
          html_fail_line filename exc ∈ l).
Proof.
  unfold part2_step, runs2, url_of.
  destruct (Py.startswith "." filename || negb (Py.endswith ".html" filename)); simpl.
  { intros [= <-]. exists []. rewrite app_nil_r. by split_and!. }
  destruct (extract_url_from_html _ _) as [url_2 lines] eqn:Hext. simpl.
  assert (∀ exc, read_html w filename = ReadError exc →
            html_fail_line filename exc ∈ lines ∧ url_2 = None) as Herr.
  { intros exc He. rewrite He in Hext. simpl in Hext. injection Hext as <- <-.
    split; [apply list_elem_of_here | done]. }
  destruct (Py.truthy url_2) eqn:Htr; simpl.
  - intros (l & Hl)%part2_merge_log. simpl in Hl. exists (lines ++ l).
    rewrite Hl, app_assoc. split_and!; [done|done|].
    intros exc _ [_ ->]%Herr. done.
  - intros [= <-]. exists (lines ++ [part2_fail_line filename]).
    unfold part2_no_url. simpl. split_and!.
    + destruct (Od.get _ _); simpl; by rewrite <-app_assoc.
    + intros _ _. apply elem_of_app. right. apply list_elem_of_here.
    + intros exc _ [? _]%Herr. apply elem_of_app. by left.
Qed.

Lemma part2_loop_log w files s s' :
  part2_loop w files s = Done s' →
  ∃ l, log s' = log s ++ l
       ∧ (∀ f, f ∈ files → runs2 f = true → Py.truthy (url_of w f) = false →
          part2_fail_line f ∈ l)
       ∧ (∀ f exc, f ∈ files → runs2 f = true → read_html w f = ReadError exc →
          html_fail_line f exc ∈ l).
Proof.
  revert s. induction files as [|f files IH]; intros s; simpl.
  - intros [= <-]. exists []. rewrite app_nil_r. split_and!; [done| |];
      intros; by apply elem_of_nil in H.
  - destruct (part2_step w s f) as [s1|] eqn:Hstep; simpl; [|done].
    intros Hloop.
    destruct (part2_step_log _ _ _ _ Hstep) as (l1 & Hl1 & Hf1 & He1).
    destruct (IH s1 Hloop) as (l2 & Hl2 & Hf2 & He2).
    exists (l1 ++ l2). rewrite Hl2, Hl1, app_assoc. split_and!; [done| |].
    + intros f' [->|Hin]%elem_of_cons ? ?; apply elem_of_app; [left|right]; auto.
    + intros f' exc [->|Hin]%elem_of_cons ? ?; apply elem_of_app; [left|right]; eauto.
Qed.

(** X10. The log only grows: what Part 1 logged is the beginning of the
    final log. Every processed Part-2 HTML file in which no URL is found
    has its [PART 2 FAIL] line in the final log, and every one that could
    not be read has its [HTML FAIL] line as well. *)
Theorem part2_failures_logged (w : world) (s : state) :
  process_files w = Done s →
  log (part1 w (State [] [])) `prefix_of` log s
  ∧ (∀ f, f ∈ default [] (dir2 w) → runs2 f = true →
          Py.truthy (url_of w f) = false →
          ("PART 2 FAIL: Could not extract URL from " +:+ f) ∈ log s)
  ∧ (∀ f exc, f ∈ default [] (dir2 w) → runs2 f = true →
              read_html w f = ReadError exc →
              ("HTML FAIL: " +:+ path_join SOURCE_DIR_2 f +:+ " - " +:+ exc) ∈ log s
              ∧ ("PART 2 FAIL: Could not extract URL from " +:+ f) ∈ log s).
Proof.
  unfold process_files, part2. destruct (dir2 w) as [files|]; simpl.
  - intros (l & Hl & Hf & He)%part2_loop_log. rewrite Hl.
    assert (∀ f, f ∈ files → runs2 f = true → Py.truthy (url_of w f) = false →
              part2_fail_line f ∈ log (part1 w (State [] [])) ++ l) as Hfail.
    { intros f Hin ? ?. apply elem_of_app. right. apply Hf; [|done|done].
      by apply elem_of_sort_names. }
    split_and!.
    + by apply prefix_app_r.
    + exact Hfail.
    + intros f exc Hin Hr Hx. split.
      * apply elem_of_app. right. eapply He; [|done|done]. by apply elem_of_sort_names.
      * apply Hfail; [done|done|]. unfold url_of. by rewrite Hx.
  - intros [= <-]. split_and!; [done| |]; intros; by apply elem_of_nil in H.
Qed.

Lemma part2_failures_logged_witness :
  "PART 2 FAIL: Could not extract URL from bob_link.html"
  ∈ ["PART 2 FAIL: Could not extract URL from bob_link.html"].
Proof.
  apply (proj1 (proj2 (part2_failures_logged world_without_link
                         (State [] ["PART 2 FAIL: Could not extract URL from bob_link.html"])
                         eq_refl)) "bob_link.html").
  - apply list_elem_of_here.
  - reflexivity.
  - reflexivity.
Defined.

(** ** Records that come from Part 2 alone *)

Lemma part2_only_step k u o o' :
  (∀ r, o = Some r → part2_only r) →
  next_record k u o = Done o' →
  ∀ r', o' = Some r' → part2_only r'.
Proof.
  intros Hinv Hnext r' ->. destruct o as [r|].
  - destruct (Hinv r eq_refl) as (H1 & H2 & H3 & H4 & H5).
    unfold next_record in Hnext. destruct (negb _); simpl in Hnext.
    + injection Hnext as <-. unfold part2_only, flagged.
      split_and!;
        repeat first [rewrite lookup_insert_eq | rewrite lookup_insert_ne by done];
        done.
    + destruct (merged _ r) as [r1|] eqn:Hm; simplify_eq/=.
      unfold part2_only. rewrite !(merged_lookup _ _ _ _ Hm) by done.
      split_and!; try done.
      unfold merged in Hm. destruct (clean_if _); simpl in Hm; [|done].
      destruct (negb _ && _); [|destruct (_ && _ && _)]; injection Hm as <-;
        unfold attached;
        repeat first [rewrite lookup_insert_eq | rewrite lookup_insert_ne by done];
        done.
  - unfold next_record in Hnext. destruct (negb _); simplify_eq/=.
    unfold part2_only. by split_and!.
Qed.

(** X11. A record of the output has [part_1_completed = false] exactly
    when no processed Part-1 file maps to its student; it then carries the
    note [Found only in Part 2], [needs_review = true], no district and
    [part_2_completed = true]. A record of a student with a Part-1 file
    has [part_1_completed = true] and no note. *)
Theorem part2_only_records (w : world) (s : state) (k : string) (r : record) :
  process_files w = Done s →
  Od.get k (records s) = Some r →
  ((∃ f, f ∈ default [] (dir1 w) ∧ runs1 f = true ∧ student_of f = k) →
   r !! "part_1_completed" = Some (PyBool true) ∧ r !! "note" = None)
  ∧ ((¬ ∃ f, f ∈ default [] (dir1 w) ∧ runs1 f = true ∧ student_of f = k) →
     part2_only r).
Proof.
  intros Hrun Hget.
  destruct (process_files_view w) as (s0 & Hs0 & _ & Hfold).
  rewrite Hrun in Hs0. injection Hs0 as <-. specialize (Hfold k).
  destruct (part1_view w) as (_ & Hsome & Hshape). specialize (Hsome k).
  rewrite Hget in Hfold. split.
  - intros [r1 Hr1]%Hsome.
    destruct (Hshape k r1 Hr1) as [v ->].
    destruct (process_files_kept w s k _ Hrun Hr1)
      as (r' & Hget' & _ & _ & Hp & Hn & _).
    rewrite Hget in Hget'. injection Hget' as <-. by rewrite Hp, Hn.
  - intros Hno.
    assert (Od.get k (records (part1 w (State [] []))) = None) as Hnone.
    { apply eq_None_not_Some. by rewrite Hsome. }
    rewrite Hnone in Hfold.
    apply (fold_next_inv k (λ _ o, ∀ r, o = Some r → part2_only r))
      with (urls := own_urls w k (files2 w)) (hist := []) (o := None) (o' := Some r);
      [|done|done|done].
    intros _ o u o' Ho Hn. by eapply part2_only_step.
Qed.

Lemma part2_only_records_witness :
  part2_only
    (list_to_map
       [("student", PyStr "cat"); ("community_district", PyNone);
        ("storymap_url", PyStr "https://arcg.is/D");
        ("storymap_url_2", PyStr "https://arcg.is/D"); ("needs_review", PyBool true);
        ("part_1_completed", PyBool false); ("part_2_completed", PyBool true);
        ("note", PyStr "Found only in Part 2")]).
Proof.
  apply (proj2 (part2_only_records world_part2_only
                  (State [("cat", part2_new_record "cat" "https://arcg.is/D")]
                     ["CRITICAL: Directory not found: lecture_checklists/cdspec_1";
                      "NEW STUDENT: cat found in Part 2."])
                  "cat" _ eq_refl eq_refl)).
  intros (f & Hf & _). by apply elem_of_nil in Hf.
Defined.

(** ** The order of the output *)

Lemma keys_put_prefix k o (d : list (string * record)) :
  Od.keys d `prefix_of` Od.keys (put k o d).
Proof.
  destruct o as [r|]; simpl; [|done].
  destruct (decide (k ∈ Od.keys d)).
  - by rewrite OdFacts.keys_set_in.
  - rewrite OdFacts.keys_set_notin by done. by apply prefix_app_r.
Qed.

Lemma part2_loop_keys w files s s' :
  part2_loop w files s = Done s' →
  Od.keys (records s) `prefix_of` Od.keys (records s').
Proof.
  revert s. induction files as [|f files IH]; intros s; simpl.
  - by intros [= <-].
  - destruct (part2_step w s f) as [s1|] eqn:Hstep; simpl; [|done].
    intros Hloop. etrans; [|by apply IH].
    destruct (runs2 f) eqn:Hruns.
    + pose proof (part2_step_view w s f Hruns) as Hview.
      destruct (next_record _ _ _) as [o|]; [|congruence].
      destruct Hview as [lg Hs1]. rewrite Hstep in Hs1. injection Hs1 as ->.
      apply keys_put_prefix.
    + rewrite part2_step_skip in Hstep by done. by injection Hstep as <-.
Qed.

(** X12. Part 2 keeps the order of the records: the students of Part 1
    stay where they are at the head of the output, in the order in which
    Part 1 met them, and the students found in Part 2 alone follow. *)
Theorem part2_appends_records (w : world) (s : state) :
  process_files w = Done s →
  ∃ new, Od.keys (records s) = Od.keys (records (part1 w (State [] []))) ++ new
         ∧ ∀ k, k ∈ new →
                ¬ ∃ f, f ∈ default [] (dir1 w) ∧ runs1 f = true ∧ student_of f = k.
Proof.
  intros Hrun.
  assert (Od.keys (records (part1 w (State [] []))) `prefix_of` Od.keys (records s))
    as [new Hnew].
  { unfold process_files, part2 in Hrun. destruct (dir2 w) as [files|].
    - by eapply part2_loop_keys.
    - by injection Hrun as <-. }
  exists new. split; [done|]. intros k Hk Hf.
  destruct (process_files_view w) as (s0 & Hs0 & Hnd & _).
  rewrite Hrun in Hs0. injection Hs0 as <-.
  rewrite Hnew in Hnd. apply NoDup_app in Hnd as (_ & Hdisj & _).
  destruct (part1_view w) as (_ & Hsome & _).
  apply Hsome in Hf. apply (Hdisj k); [|done].
  apply dec_stable. intros Hn. apply OdFacts.get_None in Hn.
  rewrite Hn in Hf. by destruct Hf.
Qed.

Lemma part2_appends_records_witness :
  ∃ new, Od.keys [("cat", part2_new_record "cat" "https://arcg.is/D")]
         = Od.keys (records (part1 world_part2_only (State [] []))) ++ new
         ∧ ∀ k, k ∈ new →
                ¬ ∃ f, f ∈ default [] (dir1 world_part2_only) ∧ runs1 f = true
                       ∧ student_of f = k.
Proof.
  apply (part2_appends_records world_part2_only
           (State [("cat", part2_new_record "cat" "https://arcg.is/D")]
              ["CRITICAL: Directory not found: lecture_checklists/cdspec_1";
               "NEW STUDENT: cat found in Part 2."])).
  reflexivity.
Defined.

(** ** From the output to the worklist *)

Lemma second_url_inv_step k u o o' :
  second_url_inv o → next_record k u o = Done o' → second_url_inv o'.
Proof.
  intros Hinv Hnext r' ->. unfold next_record in Hnext.
  destruct (Py.truthy u) eqn:Hu; simpl in Hnext.
  - assert (py_truthy (PyStr (default EmptyString u)) = true) as Hu2.
    { by destruct u. }
    destruct o as [r|]; simpl in Hnext.
    + destruct (Hinv r eq_refl) as [Hf _].
      unfold merged in Hnext. destruct (clean_if _); simpl in Hnext; [|done].
      destruct (negb _ && _); [|destruct (_ && _ && _)]; injection Hnext as <-;
        unfold attached, py_get;
        repeat first [rewrite lookup_insert_eq | rewrite lookup_insert_ne by done];
        (split; [by auto | by intros _]).
    + injection Hnext as <-. split; [by left|]. by intros [=].
  - injection Hnext as Ho'. destruct o as [r|]; [|done]. injection Ho' as <-.
    destruct (Hinv r eq_refl) as [Hf Ht]. unfold flagged, py_get in *.
    by rewrite !lookup_insert_ne by done.
Qed.

Lemma second_url_inv_part1 k r : part1_shaped k r → second_url_inv (Some r).
Proof. intros [v ->] ? [= <-]. split; [by left | by intros [=]]. Qed.

Lemma final_record_of_output w s r :
  process_files w = Done s → r ∈ output s → ∃ k, Od.get k (records s) = Some r.
Proof.
  intros Hrun Hin. destruct (final_students w s Hrun) as [Hnd _].
  unfold output, Od.values in Hin.
  apply list_elem_of_fmap in Hin as ([k r'] & -> & Hin).
  exists k. by apply OdFacts.elem_of_get.
Qed.

(** X18. The two scripts fit together: for a record of the extractor's
    output whose [url_mismatch] is true, both URLs are non-empty strings and
    the worklist of the screenshotter is [part1] with [storymap_url]
    followed by [part2] with [storymap_url_2]; for any other record of the
    output the worklist has no [part2] entry. *)
Theorem output_worklist (w : world) (s : state) (r : record) :
  process_files w = Done s →
  r ∈ output s →
  (r !! "url_mismatch" = Some (PyBool true) →
   Scrape.urls_to_process r
   = [("part1", py_get r "storymap_url"); ("part2", py_get r "storymap_url_2")]
   ∧ py_truthy (py_get r "storymap_url") = true
   ∧ py_truthy (py_get r "storymap_url_2") = true)
  ∧ (r !! "url_mismatch" ≠ Some (PyBool true) →
     Scrape.urls_to_process r
     = if py_truthy (py_get r "storymap_url")
       then [("part1", py_get r "storymap_url")] else []).
Proof.
  intros Hrun Hin.
  destruct (final_record_of_output w s r Hrun Hin) as [k Hget].
  destruct (final_record w s k r Hrun Hget) as (Hm & _).
  destruct (Hm r eq_refl) as (Ht & H1 & _).
  assert (second_url_inv (Some r)) as Hs.
  { destruct (process_files_view w) as (s0 & Hs0 & _ & Hfold).
    rewrite Hrun in Hs0. injection Hs0 as <-. specialize (Hfold k).
    rewrite Hget in Hfold. destruct (part1_view w) as (_ & _ & Hshape).
    apply (fold_next_inv k (λ _ o, second_url_inv o))
      with (urls := own_urls w k (files2 w)) (hist := [])
           (o := Od.get k (records (part1 w (State [] [])))) (o' := Some r);
      [|intros r0 Hr0; exact (second_url_inv_part1 k r0 (Hshape k r0 Hr0) r0 eq_refl)|done].
    intros _ o u o' Ho Hn. by eapply second_url_inv_step. }
  destruct (Hs r eq_refl) as [Hflag H2]. unfold Scrape.urls_to_process. split.
  - intros Hf. specialize (H1 Hf). specialize (H2 Hf).
    assert (py_truthy (py_get r "storymap_url") = true) as Hu1.
    { unfold typed in Ht. destruct (py_get r "storymap_url") as [| |u]; try done.
      simpl in *. apply nonempty_true. by intros ->. }
    assert (py_get r "url_mismatch" = PyBool true) as -> by (unfold py_get; by rewrite Hf).
    rewrite Hu1, H2. done.
  - intros Hf. destruct Hflag as [Hnone|?]; [|done].
    assert (py_get r "url_mismatch" = PyNone) as -> by (unfold py_get; by rewrite Hnone).
    done.
Qed.

Lemma output_worklist_witness :
  (record_stale !! "url_mismatch" = Some (PyBool true) →
   Scrape.urls_to_process record_stale
   = [("part1", py_get record_stale "storymap_url");
      ("part2", py_get record_stale "storymap_url_2")]
   ∧ py_truthy (py_get record_stale "storymap_url") = true
   ∧ py_truthy (py_get record_stale "storymap_url_2") = true)
  ∧ (record_stale !! "url_mismatch" ≠ Some (PyBool true) →
     Scrape.urls_to_process record_stale
     = if py_truthy (py_get record_stale "storymap_url")
       then [("part1", py_get record_stale "storymap_url")] else []).
Proof.
  apply (output_worklist world_two_links
           (State [("ada", record_stale)]
              ["URL MISMATCH: ada - Part 1: https://arcg.is/A vs Part 2: https://arcg.is/B"])
           record_stale).
  - reflexivity.
  - apply list_elem_of_here.
Defined.

(** ** Records that need no review *)

Lemma clean_inv_step k hist o u o' :
  clean_inv hist o → next_record k u o = Done o' → clean_inv (hist ++ [u]) o'.
Proof.
  intros Hinv Hnext r' -> Hnr. unfold next_record in Hnext.
  destruct (Py.truthy u) eqn:Hu; simpl in Hnext.
  - apply Forall_app. split; [|by repeat constructor].
    destruct o as [r|]; simpl in Hnext.
    + destruct (merged _ r) as [r1|] eqn:Hm; simplify_eq/=.
      apply (Hinv r eq_refl). by rewrite <-(merged_lookup _ _ _ "needs_review" Hm).
    + injection Hnext as <-. by vm_compute in Hnr.
  - injection Hnext as Ho'. destruct o as [r|]; [|done]. injection Ho' as <-.
    unfold flagged in Hnr. by rewrite lookup_insert_ne, lookup_insert_eq in Hnr.
Qed.

(** X19. A record of the output with [needs_review = false] is really
    clean: its student has a Part-1 file, the last of them in sorted order
    was read as CSV in the strict layout with both fields found, and every
    processed Part-2 file of the student gave a URL. *)
Theorem clean_records (w : world) (s : state) (k : string) (r : record) :
  process_files w = Done s →
  Od.get k (records s) = Some r →
  r !! "needs_review" = Some (PyBool false) →
  (∃ f, last (filter (λ f, runs1 f = true ∧ student_of f = k) (files1 w)) = Some f
        ∧ needs_review (final_check f (read_part1 w f)) = false)
  ∧ (∀ f, f ∈ default [] (dir2 w) → runs2 f = true → student_of f = k →
          Py.truthy (url_of w f) = true).
Proof.
  intros Hrun Hget Hnr.
  destruct (process_files_view w) as (s0 & Hs0 & _ & Hfold).
  rewrite Hrun in Hs0. injection Hs0 as <-. specialize (Hfold k).
  rewrite Hget in Hfold.
  pose proof (foldl_part1_step_last w k) as Hlast.
  assert (Od.get k (records (part1 w (State [] [])))
          = part1_record_of w
              <$> last (filter (λ f, runs1 f = true ∧ student_of f = k) (files1 w)))
    as Hp1.
  { unfold part1, files1. destruct (dir1 w) as [files|]; simpl; [|done].
    rewrite Hlast. by destruct (last _). }
  split.
  - destruct (last _) as [f|] eqn:Hf; simpl in Hp1.
    + exists f. split; [done|].
      destruct (process_files_kept w s k _ Hrun Hp1) as (r' & Hget' & _ & _ & _ & _ & Hmono).
      rewrite Hget in Hget'. injection Hget' as <-.
      destruct (needs_review (final_check f (read_part1 w f))) eqn:Hv; [|done].
      rewrite Hmono in Hnr; [done|].
      unfold part1_record_of, part1_record. rewrite Hv. by vm_compute.
    + rewrite Hp1 in Hfold.
      assert (part2_only r) as (_ & _ & Hr & _).
      { apply (fold_next_inv k (λ _ o, ∀ r, o = Some r → part2_only r))
          with (urls := own_urls w k (files2 w)) (hist := []) (o := None) (o' := Some r);
          [|done|done|done].
        intros _ o u o' Ho Hn. by eapply part2_only_step. }
      congruence.
  - intros f Hf Hruns Hk.
    assert (clean_inv (own_urls w k (files2 w)) (Some r)) as Hc.
    { apply (fold_next_inv k clean_inv)
        with (urls := own_urls w k (files2 w)) (hist := [])
             (o := Od.get k (records (part1 w (State [] [])))) (o' := Some r);
        [|by intros ? ? ?|done].
      intros h o u o' Ho Hn. by eapply clean_inv_step. }
    specialize (Hc r eq_refl Hnr). rewrite Forall_forall in Hc.
    apply Hc. unfold files2. by apply own_urls_of_elem.
Qed.

Lemma clean_records_witness :
  (∃ f, last (filter (λ f, runs1 f = true ∧ student_of f = "ada") (files1 world_slash))
        = Some f
        ∧ needs_review (final_check f (read_part1 world_slash f)) = false)
  ∧ (∀ f, f ∈ default [] (dir2 world_slash) → runs2 f = true → student_of f = "ada" →
          Py.truthy (url_of world_slash f) = true).
Proof.
  apply (clean_records world_slash (State [("ada", record_slash)] []) "ada" record_slash);
    reflexivity.
Defined.

(** * The screenshotter, run by run *)

(** ** The screenshotter and the files *)

Module GrowFacts.
Import Scrape.

Lemma grows_refl s : grows s s.
Proof. by unfold grows. Qed.

Lemma grows_trans s1 s2 s3 : grows s1 s2 → grows s2 s3 → grows s1 s3.
Proof. unfold grows. intros [? ?] [? ?]. split; by etrans. Qed.

Lemma grows_print line s : grows s (print line s).
Proof. by unfold grows. Qed.

Lemma grows_makedirs path s : grows s (makedirs path s).1.
Proof.
  unfold makedirs. case_bool_decide; simpl; [apply grows_refl|].
  unfold grows; simpl. split; [done|set_solver].
Qed.

Lemma path_exists_false path s : path_exists path s = false → files s !! path = None.
Proof.
  unfold path_exists. rewrite orb_false_iff, !bool_decide_eq_false.
  intros [H _]. by apply eq_None_not_Some.
Qed.

Lemma path_exists_grows path s s' :
  grows s s' → path_exists path s = true → path_exists path s' = true.
Proof.
  unfold grows, path_exists. intros [Hf Hd].
  rewrite !orb_true_iff, !bool_decide_eq_true. intros [[c Hc]|?]; [left|right; set_solver].
  exists c. by eapply lookup_weaken.
Qed.

Lemma grows_visit b label path url s :
  path_exists path s = false → grows s (visit b label path url s).
Proof.
  intros Hnone%path_exists_false. unfold visit, grows.
  destruct (b (attempts s) url); simpl; split; try done; by apply insert_subseteq.
Qed.

Lemma grows_scrape_url b student_dir s item : grows s (scrape_url b student_dir s item).
Proof.
  unfold scrape_url. destruct item as [label url].
  destruct (path_exists _ s) eqn:Hex; [apply grows_print|].
  eapply grows_trans; [apply grows_print|]. by apply grows_visit.
Qed.

Lemma grows_scrape_urls b student_dir urls s :
  grows s (foldl (scrape_url b student_dir) s urls).
Proof.
  revert s. induction urls as [|item urls IH]; intros s; cbn [foldl]; [apply grows_refl|].
  eapply grows_trans; [apply grows_scrape_url | apply IH].
Qed.

Lemma grows_scrape_record b s student_record :
  grows s (scrape_record b s student_record).1.
Proof.
  unfold scrape_record. destruct (negb _); simpl; [apply grows_refl|].
  destruct (py_get student_record "student") as [|flag|name]; simpl;
    try apply grows_print.
  set (s1 := print _ s).
  pose proof (grows_makedirs (path_join OUTPUT_DIR name) s1) as Hmk.
  destruct (makedirs _ s1) as [s2 [exc|]]; simpl in *.
  - eapply grows_trans; [apply grows_print | done].
  - eapply grows_trans; [apply grows_print|].
    eapply grows_trans; [done | apply grows_scrape_urls].
Qed.

Lemma grows_scrape_records b data s : grows s (scrape_records b data s).1.
Proof.
  revert s. induction data as [|r data IH]; intros s; simpl; [apply grows_refl|].
  pose proof (grows_scrape_record b s r) as Hr.
  destruct (scrape_record b s r) as [s1 [exc|]]; simpl in *; [done|].
  eapply grows_trans; [done | apply IH].
Qed.

Lemma grows_scrape_storymaps b data s : grows s (scrape_storymaps b data s).1.
Proof.
  unfold scrape_storymaps.
  pose proof (grows_makedirs OUTPUT_DIR s) as Hmk.
  destruct (makedirs OUTPUT_DIR s) as [s1 [exc|]]; simpl in *; [done|].
  eapply grows_trans; [done | apply grows_scrape_records].
Qed.

End GrowFacts.

(** X14. Whatever the browser does and however the run ends, the
    screenshotter neither deletes nor overwrites: every file that exists
    before a run exists after it with the same content, and so does every
    directory. *)
Theorem scrape_keeps_files (b : Scrape.browser) (data : list record)
    (s : Scrape.state) :
  (∀ path content,
     Scrape.files s !! path = Some content →
     Scrape.files (Scrape.scrape_storymaps b data s).1 !! path = Some content)
  ∧ Scrape.dirs s ⊆ Scrape.dirs (Scrape.scrape_storymaps b data s).1.
Proof.
  destruct (GrowFacts.grows_scrape_storymaps b data s) as [Hf Hd].
  split; [|done]. intros path content Hp. by eapply lookup_weaken.
Qed.

Lemma scrape_keeps_files_witness :
  Scrape.files
    (Scrape.scrape_storymaps (λ _ _, Scrape.Saved "new")
       [{["student" := PyStr "ada"; "storymap_url" := PyStr "https://arcg.is/1"]}]
       (Scrape.State {["processing/storymaps_archive/ada/part1.png" := "old"]} ∅ [] 0 [])).1
  !! "processing/storymaps_archive/ada/part1.png" = Some "old".
Proof.
  apply (proj1 (scrape_keeps_files (λ _ _, Scrape.Saved "new")
                  [{["student" := PyStr "ada"; "storymap_url" := PyStr "https://arcg.is/1"]}]
                  (Scrape.State {["processing/storymaps_archive/ada/part1.png" := "old"]}
                     ∅ [] 0 []))).
  reflexivity.
Defined.

(** ** Where the screenshotter goes *)

Module NavFacts.
Import Scrape.

Lemma navigated_refl P s : navigated P 0 s s.
Proof. exists []. by rewrite app_nil_r. Qed.

Lemma navigated_trans P n1 n2 s1 s2 s3 :
  navigated P n1 s1 s2 → navigated P n2 s2 s3 → navigated P (n1 + n2) s1 s3.
Proof.
  intros (l1 & H1 & F1 & L1) (l2 & H2 & F2 & L2). exists (l1 ++ l2).
  rewrite H2, H1, app_assoc, length_app. split_and!; [done|by apply Forall_app|lia].
Qed.

Lemma navigated_impl (P Q : pyval → Prop) n m s s' :
  (∀ u, P u → Q u) → n ≤ m → navigated P n s s' → navigated Q m s s'.
Proof.
  intros HPQ Hnm (l & H & F & L). exists l. split_and!; [done| |lia].
  by eapply Forall_impl.
Qed.

Lemma navigated_print P line s : navigated P 0 s (print line s).
Proof. exists []. simpl. by rewrite app_nil_r. Qed.

Lemma navigated_makedirs P path s : navigated P 0 s (makedirs path s).1.
Proof.
  unfold makedirs. case_bool_decide; exists []; simpl; by rewrite app_nil_r.
Qed.

Lemma navigated_visit (P : pyval → Prop) b label path url s :
  P url → navigated P 1 s (visit b label path url s).
Proof.
  intros Hu. unfold visit. destruct (b (attempts s) url); simpl;
    first [ by exists []; rewrite app_nil_r; split_and!; [done|constructor|simpl; lia]
          | exists [url]; split_and!; [done|by constructor|simpl; lia] ].
Qed.

Lemma navigated_scrape_url (P : pyval → Prop) b student_dir s label url :
  P url → navigated P 1 s (scrape_url b student_dir s (label, url)).
Proof.
  intros Hu. unfold scrape_url. destruct (path_exists _ s).
  - apply (navigated_impl P P 0 1); [done|lia|apply navigated_print].
  - eapply (navigated_trans P 0 1); [apply navigated_print|by apply navigated_visit].
Qed.

Lemma navigated_scrape_urls (P : pyval → Prop) b student_dir urls s :
  Forall (λ item, P item.2) urls →
  navigated P (length urls) s (foldl (scrape_url b student_dir) s urls).
Proof.
  intros Hurls. revert s.
  induction Hurls as [|[label url] urls Hu _ IH]; intros s; cbn [foldl length].
  - apply navigated_refl.
  - eapply (navigated_trans P 1 (length urls)); [by apply navigated_scrape_url|apply IH].
Qed.

Lemma urls_to_process_of_record r :
  Forall (λ item, url_of_record r item.2) (urls_to_process r)
  ∧ length (urls_to_process r) ≤ 2.
Proof.
  unfold urls_to_process, url_of_record.
  destruct (py_truthy (py_get r "storymap_url")) eqn:H1,
    (py_truthy (py_get r "url_mismatch")) eqn:Hm,
    (py_truthy (py_get r "storymap_url_2")) eqn:H2; simpl;
    (split;
     [repeat (apply Forall_cons; split;
              [simpl; split; [done | first [by left | by right]]|]);
      apply Forall_nil
     |lia]).
  all: done.
Qed.

Lemma navigated_scrape_record b s r :
  navigated (url_of_record r) 2 s (scrape_record b s r).1.
Proof.
  set (P := url_of_record r).
  unfold scrape_record. destruct (negb _); simpl.
  { apply (navigated_impl P P 0 2); [done|lia|apply navigated_refl]. }
  destruct (py_get r "student") as [|flag|name]; simpl;
    try (apply (navigated_impl P P 0 2); [done|lia|apply navigated_print]).
  set (s1 := print _ s).
  assert (navigated P 0 s s1) as Hs1 by apply navigated_print.
  pose proof (navigated_makedirs P (path_join OUTPUT_DIR name) s1) as Hmk.
  destruct (makedirs _ s1) as [s2 [exc|]]; simpl in *.
  - apply (navigated_impl P P (0 + 0) 2); [done|lia|].
    eapply navigated_trans; [exact Hs1 | exact Hmk].
  - destruct (urls_to_process_of_record r) as [Hall Hlen].
    apply (navigated_impl P P (0 + 0 + length (urls_to_process r)) 2); [done|lia|].
    eapply navigated_trans; [eapply navigated_trans; [exact Hs1 | exact Hmk]|].
    by apply navigated_scrape_urls.
Qed.

Lemma navigated_scrape_records b data s :
  navigated (λ u, ∃ r, r ∈ data ∧ url_of_record r u) (2 * length data) s
    (scrape_records b data s).1.
Proof.
  revert s. induction data as [|r data IH]; intros s; cbn [scrape_records].
  { apply navigated_refl. }
  set (P := λ u, ∃ r0, r0 ∈ r :: data ∧ url_of_record r0 u).
  assert (navigated P 2 s (scrape_record b s r).1) as Hr.
  { apply (navigated_impl (url_of_record r) P 2 2); [|lia|apply navigated_scrape_record].
    intros u Hu. exists r. split; [apply list_elem_of_here|done]. }
  destruct (scrape_record b s r) as [s1 [exc|]]; simpl in *.
  - apply (navigated_impl P P 2); [done|lia|done].
  - apply (navigated_impl P P (2 + 2 * length data)); [done|lia|].
    eapply navigated_trans; [exact Hr|].
    eapply navigated_impl; [|done|apply IH].
    intros u (r' & ? & ?). exists r'. split; [by apply list_elem_of_further|done].
Qed.

End NavFacts.

(** X15. The screenshotter opens only URLs of the records it was given:
    the navigations of a run are those made before followed by at most two
    per record, each to the non-empty [storymap_url] of a record or to the
    non-empty [storymap_url_2] of a record whose [url_mismatch] is true. *)
Theorem scrape_navigations (b : Scrape.browser) (data : list record)
    (s : Scrape.state) :
  ∃ l, Scrape.navigations (Scrape.scrape_storymaps b data s).1
       = Scrape.navigations s ++ l
       ∧ length l ≤ 2 * length data
       ∧ ∀ u, u ∈ l →
           ∃ r, r ∈ data ∧ py_truthy u = true
                ∧ (u = py_get r "storymap_url"
                   ∨ (u = py_get r "storymap_url_2"
                      ∧ py_truthy (py_get r "url_mismatch") = true)).
Proof.
  assert (navigated (λ u, ∃ r, r ∈ data ∧ url_of_record r u) (2 * length data) s
            (Scrape.scrape_storymaps b data s).1) as (l & Hl & Hall & Hlen).
  { unfold Scrape.scrape_storymaps.
    pose proof (NavFacts.navigated_makedirs
                  (λ u, ∃ r, r ∈ data ∧ url_of_record r u) Scrape.OUTPUT_DIR s) as Hmk.
    destruct (Scrape.makedirs Scrape.OUTPUT_DIR s) as [s1 [exc|]]; simpl in *.
    - eapply NavFacts.navigated_impl; [|apply Nat.le_0_l|exact Hmk]. done.
    - eapply (NavFacts.navigated_trans _ 0); [exact Hmk|].
      apply NavFacts.navigated_scrape_records. }
  exists l. split_and!; [done|done|].
  rewrite Forall_forall in Hall. intros u (r & Hr & Ht & Hu)%Hall. by exists r.
Qed.

(** ** Running the screenshotter twice *)

Module RerunFacts.
Import Scrape.

Lemma exists_after_scrape_url b student_dir s label url :
  saves b →
  path_exists (output_path student_dir label) (scrape_url b student_dir s (label, url)) = true.
Proof.
  intros Hb. unfold scrape_url, output_path.
  destruct (path_exists _ s) eqn:Hex.
  - eapply GrowFacts.path_exists_grows; [apply GrowFacts.grows_print | done].
  - unfold visit. specialize (Hb (attempts (print ("  - Downloading " +:+ label +:+ ": " +:+ py_str url) s)) url).
    destruct (b _ url); try done; unfold path_exists; simpl;
      rewrite lookup_insert_eq; by rewrite bool_decide_true by eauto.
Qed.

Lemma exists_after_scrape_urls b student_dir urls s label url :
  saves b →
  (label, url) ∈ urls →
  path_exists (output_path student_dir label) (foldl (scrape_url b student_dir) s urls) = true.
Proof.
  intros Hb. revert s. induction urls as [|item urls IH]; intros s Hin; cbn [foldl].
  { by apply elem_of_nil in Hin. }
  apply elem_of_cons in Hin as [<-|Hin]; [|by apply IH].
  eapply GrowFacts.path_exists_grows; [apply GrowFacts.grows_scrape_urls|].
  by apply exists_after_scrape_url.
Qed.

Lemma exists_after_scrape_record b s r s' name label url :
  saves b →
  scrape_record b s r = (s', None) →
  py_get r "student" = PyStr name → name ≠ EmptyString →
  (label, url) ∈ urls_to_process r →
  path_exists (output_path (path_join OUTPUT_DIR name) label) s' = true.
Proof.
  intros Hb Hrun Hname Hne Hin. unfold scrape_record in Hrun. rewrite Hname in Hrun.
  simpl in Hrun. apply nonempty_true in Hne. rewrite Hne in Hrun. simpl in Hrun.
  destruct (makedirs _ _) as [s2 [exc|]]; [done|].
  injection Hrun as <-. by eapply exists_after_scrape_urls.
Qed.

Lemma exists_after_scrape_records b data s s' r name label url :
  saves b →
  scrape_records b data s = (s', None) →
  r ∈ data →
  py_get r "student" = PyStr name → name ≠ EmptyString →
  (label, url) ∈ urls_to_process r →
  path_exists (output_path (path_join OUTPUT_DIR name) label) s' = true.
Proof.
  intros Hb. revert s. induction data as [|r0 data IH]; intros s Hrun Hr Hname Hne Hin.
  { by apply elem_of_nil in Hr. }
  cbn [scrape_records] in Hrun.
  destruct (scrape_record b s r0) as [s1 [exc|]] eqn:Hr0; [done|].
  apply elem_of_cons in Hr as [->|Hr]; [|by eapply IH].
  pose proof (GrowFacts.grows_scrape_records b data s1) as Hg. rewrite Hrun in Hg.
  eapply GrowFacts.path_exists_grows; [exact Hg|].
  by eapply exists_after_scrape_record.
Qed.

(** A run on records whose images exist, the records without a name left
    aside. *)
Lemma scrape_record_named_existing b s0 s r :
  untouched s0 s →
  (∀ name label url,
     py_get r "student" = PyStr name → name ≠ EmptyString →
     (label, url) ∈ urls_to_process r →
     path_exists (output_path (path_join OUTPUT_DIR name) label) s0 = true) →
  untouched s0 (scrape_record b s r).1.
Proof.
  intros Hs Hex. unfold scrape_record.
  destruct (py_get r "student") as [|flag|name] eqn:Hname; simpl.
  - done.
  - destruct flag; simpl; [|done].
    eapply ScrapeFacts.untouched_trans; [done | apply ScrapeFacts.untouched_print].
  - destruct (Py.nonempty name) eqn:Hne; simpl; [|done].
    apply nonempty_true in Hne.
    apply (ScrapeFacts.scrape_record_existing b s0 s r) in Hs.
    + unfold scrape_record in Hs. rewrite Hname in Hs. simpl in Hs.
      apply nonempty_true in Hne. by rewrite Hne in Hs.
    + intros name' label url Hn'. rewrite Hname in Hn'. injection Hn' as <-.
      by apply Hex.
Qed.

Lemma scrape_records_named_existing b data s0 s :
  untouched s0 s →
  (∀ r name label url,
     r ∈ data →
     py_get r "student" = PyStr name → name ≠ EmptyString →
     (label, url) ∈ urls_to_process r →
     path_exists (output_path (path_join OUTPUT_DIR name) label) s0 = true) →
  untouched s0 (scrape_records b data s).1.
Proof.
  revert s. induction data as [|r data IH]; intros s Hs Hex; simpl; [done|].
  pose proof (scrape_record_named_existing b s0 s r Hs) as Hr.
  destruct (scrape_record b s r) as [s1 [exc|]]; simpl in *.
  - apply Hr. intros name label url. apply Hex, list_elem_of_here.
  - apply IH.
    + apply Hr. intros name label url. apply Hex, list_elem_of_here.
    + intros r' name label url Hin. by apply Hex, list_elem_of_further.
Qed.

End RerunFacts.

(** X16. The screenshotter is idempotent: after a run that ended
    without an exception with a browser that always got as far as writing
    the image, a second run on the same records, whatever its browser does,
    opens no page, enters no [try] block and leaves every file as it is. *)
Theorem scrape_twice (b b' : Scrape.browser) (data : list record)
    (s s1 : Scrape.state) :
  saves b →
  Scrape.scrape_storymaps b data s = (s1, None) →
  Scrape.navigations (Scrape.scrape_storymaps b' data s1).1 = Scrape.navigations s1
  ∧ Scrape.attempts (Scrape.scrape_storymaps b' data s1).1 = Scrape.attempts s1
  ∧ Scrape.files (Scrape.scrape_storymaps b' data s1).1 = Scrape.files s1.
Proof.
  intros Hb Hrun.
  assert (untouched s1 (Scrape.scrape_storymaps b' data s1).1) as (? & ? & ? & _); [|done].
  unfold Scrape.scrape_storymaps in *.
  destruct (Scrape.makedirs Scrape.OUTPUT_DIR s) as [s0 [exc|]]; [done|].
  pose proof (ScrapeFacts.untouched_makedirs Scrape.OUTPUT_DIR s1) as Hmk.
  destruct (Scrape.makedirs Scrape.OUTPUT_DIR s1) as [s2 [exc|]]; simpl in *; [done|].
  apply RerunFacts.scrape_records_named_existing; [done|].
  intros r name label url Hr Hname Hne Hin.
  by eapply RerunFacts.exists_after_scrape_records.
Qed.

Lemma scrape_twice_witness :
  let b : Scrape.browser := λ _ _, Scrape.Saved "image" in
  let b' : Scrape.browser := λ _ _, Scrape.GotoFails "offline" in
  let data : list record :=
    [{["student" := PyStr "ada"; "storymap_url" := PyStr "https://arcg.is/1"]}] in
  let s1 := (Scrape.scrape_storymaps b data (Scrape.State ∅ ∅ [] 0 [])).1 in
  Scrape.navigations (Scrape.scrape_storymaps b' data s1).1 = Scrape.navigations s1
  ∧ Scrape.attempts (Scrape.scrape_storymaps b' data s1).1 = Scrape.attempts s1
  ∧ Scrape.files (Scrape.scrape_storymaps b' data s1).1 = Scrape.files s1.
Proof.
  intros b b' data s1.
  apply (scrape_twice b b' data (Scrape.State ∅ ∅ [] 0 []) s1).
  - intros n url. exact I.
  - reflexivity.
Defined.

(** ** One record, whatever the browser does *)

Module VisitFacts.
Import Scrape.








End VisitFacts.


